(** * i_walking: the route views of [api/views/map/route.py]

    A shallow embedding of the three view classes of the module
    ([AbstractRouteView], [POIRouteView], [ConcreteRouteView]) and the
    properties of the route assembly, the destination search and the
    response builder.

    Python floats are binary64 numbers: they are embedded as Rocq's primitive
    floats, so that the arithmetic of the module ([math.pi * t], [t - 30],
    [math.fabs], the [>] comparison) is the arithmetic the interpreter does.
    The mapping provider, the geodesic distance of [geopy], the WKT reader of
    [geomet], the builtin [round] and the formatting of a float are
    collaborators of the module: they are the fields of [Env], which every
    method receives the way the Python methods receive [self]. *)

From Stdlib Require Import ZArith List String Bool Lia.
From Stdlib Require Import Uint63 Floats.
Import ListNotations.

Set Implicit Arguments.

Local Open Scope string_scope.
Local Open Scope Z_scope.
Local Open Scope list_scope.

(** ** Data model *)

(** A GeoJSON position: [(longitude, latitude)]. *)
Definition Position : Type := float * float.

(** [geojson.Point((x, y))]: the dict [{'type': 'Point', 'coordinates': (x, y)}]. *)
Record Point := mkPoint { point_coordinates : Position }.

(** [geojson.LineString(positions)]. *)
Record LineString := mkLineString { linestring_coordinates : list Position }.

(** The dict [{'longitude': x, 'latitude': y}] of the responses. *)
Record LongLat := mkLongLat { longitude : float; latitude : float }.

(** The value under the key ['point'] of a search item: the provider sends
    [{'lon': x, 'lat': y}], the views overwrite it with
    [{'longitude': x, 'latitude': y}]. *)
Inductive PointField :=
| LonLat (lon lat : float)
| Normalized (p : LongLat).

(** An item of a search response: a dict of which the views read or write
    the keys ['geometry'] (its ['selection'], a WKT text) and ['point']; the
    other keys travel with it untouched. *)
Record Item := mkItem {
  item_fields : list (string * string);
  item_geometry : option string;
  item_point : option PointField
}.

(** [item['point'] = value] *)
Definition set_point (item : Item) (value : PointField) : Item :=
  {| item_fields := item_fields item;
     item_geometry := item_geometry item;
     item_point := Some value |}.

(** The directions payload: items -> legs -> steps -> edges, every edge with
    [edge['geometry']['selection']], a WKT text. *)
Record Edge := mkEdge { edge_geometry_selection : string }.
Record Step := mkStep { step_edges : list Edge }.
Record Leg := mkLeg { leg_steps : list Step }.
Record RouteItem := mkRouteItem { item_legs : list Leg }.

(** A response of the provider: [response['meta']['code']] and
    [response['result']['items']]. *)
Record Response (I : Type) := mkResponse {
  meta_code : Z;
  result_items : list I
}.

Inductive ProviderResponse :=
| DirectionsResponse (r : Response RouteItem)
| SearchResponse (r : Response Item).

(** The keyword arguments of a provider call. *)
Inductive ParamValue :=
| PStr (s : string)
| PInt (n : Z).

Definition Params : Type := list (string * ParamValue).

(** ** Exceptions and the monad of the views *)

Inductive Exception :=
| ValidationError (detail : ProviderResponse)
| TypeError      (* subscript of [None] *)
| IndexError     (* list index out of range *)
| KeyError (key : string).

Inductive Outcome (A : Type) :=
| Return (a : A)
| Raise (e : Exception).

Arguments Return {A} a.
Arguments Raise {A} e.

Definition obind {A B} (o : Outcome A) (k : A -> Outcome B) : Outcome B :=
  match o with
  | Return a => k a
  | Raise e => Raise e
  end.

(** [l[i]] *)
Definition subscript {A} (l : list A) (i : nat) : Outcome A :=
  match nth_error l i with
  | Some a => Return a
  | None => Raise IndexError
  end.

(** [d[key]] for an optional key of a dict *)
Definition getitem {A} (key : string) (field : option A) : Outcome A :=
  match field with
  | Some a => Return a
  | None => Raise (KeyError key)
  end.

(** [x[...]] where [x] may be [None] *)
Definition not_none {A} (x : option A) : Outcome A :=
  match x with
  | Some a => Return a
  | None => Raise TypeError
  end.

(** [for x in xs: acc = body(acc, x)], a body that may raise. *)
Fixpoint for_each {A S} (body : S -> A -> Outcome S) (xs : list A) (acc : S)
  : Outcome S :=
  match xs with
  | [] => Return acc
  | x :: xs' => obind (body acc x) (for_each body xs')
  end.

(** A computation that talks to the provider: the provider's state goes in
    and comes out, with the value returned or the exception raised. *)
Definition M (World A : Type) : Type := World -> Outcome A * World.

Definition ret {World A} (a : A) : M World A := fun w => (Return a, w).

Definition raise {World A} (e : Exception) : M World A := fun w => (Raise e, w).

Definition lift {World A} (o : Outcome A) : M World A := fun w => (o, w).

Definition bind {World A B} (m : M World A) (k : A -> M World B) : M World B :=
  fun w =>
    match m w with
    | (Return a, w') => k a w'
    | (Raise e, w') => (Raise e, w')
    end.

(** The same loop, with a body that talks to the provider. *)
Fixpoint for_each_M {World A S} (body : S -> A -> M World S) (xs : list A)
  (acc : S) : M World S :=
  match xs with
  | [] => ret acc
  | x :: xs' => bind (body acc x) (for_each_M body xs')
  end.

(** A call of the provider: it always answers, with its status in the answer. *)
Definition call {World A} (f : World -> A * World) : M World A :=
  fun w => let (a, w') := f w in (Return a, w').

Declare Scope views_scope.
Delimit Scope views_scope with views.
Notation "x <- m ;; k" := (bind m (fun x => k))
  (at level 61, m at next level, right associativity) : views_scope.
Notation "' pat <- m ;; k" := (bind m (fun x => match x with pat => k end))
  (at level 61, pat pattern, m at next level, right associativity) : views_scope.

(** The operations of the provider's client ([DoubleGisService().get_api()])
    that the views call. *)
Record Api (World : Type) := mkApi {
  transport_calculate_directions : Params -> World -> Response RouteItem * World;
  geo_search : Params -> World -> Response Item * World;
  catalog_branch_search : Params -> World -> Response Item * World
}.

(** What the views import or inherit from outside the module. *)
Record Env (World : Type) := mkEnv {
  (** [self.api] *)
  api : Api World;
  (** [great_circle(c1, c2).meters] of [geopy.distance] *)
  great_circle_meters : Position -> Position -> float;
  (** [wkt.loads(text)] of [geomet], on the geometry of a directions edge *)
  wkt_loads_linestring : string -> LineString;
  (** [wkt.loads(text)], on the geometry of a search item *)
  wkt_loads_point : string -> Point;
  (** ['{}'.format(x)] for a float [x] *)
  format_float : float -> string;
  (** [round(x, ndigits)] *)
  round_ndigits : float -> Z -> float;
  (** [round(x)] *)
  round_int : float -> Z;
  (** [utils.double_gis.geometry.get_center_of_points] *)
  get_center_of_points : Point -> Point -> Position;
  (** [utils.double_gis.geometry.get_normal_vector] *)
  get_normal_vector : Point -> Point -> Position
}.

(** [math.pi] *)
Definition math_pi : float := 0x1.921fb54442d18p+1%float.

(** [math.fabs] *)
Definition math_fabs (x : float) : float := abs x.

(** [x > y] on floats *)
Definition float_gt (x y : float) : bool := (y <? x)%float.

(** Modelled from the spec: the category names of [POIRouteSerializer]
    ([api/serializers/map/route.py] is not among the sources); section 6 of
    the specification lists them. *)
Module POIRouteSerializer.
Definition BAR : string := "bar".
Definition CULTURE : string := "culture".
Definition FOOD : string := "food".
Definition ROMANTIC : string := "romantic".
Definition INVESTIGATE : string := "investigate".
End POIRouteSerializer.

(** The dict that [prepare_route_response] wraps in a [Response]. *)
Record RouteResult := mkRouteResult {
  walking_time : float;
  route : list LongLat;
  route_points : list Item;
  steps_count : Z;
  end_point_data : option Item
}.

(** ** [class AbstractRouteView] *)

Module AbstractRouteView.
Section Methods.
Context {World : Type} (self : Env World).
Local Open Scope views_scope.

(** [SPEED = 3 * 1000 / 60], metres a minute: an integer product, then
    the true division. *)
Definition SPEED : float :=
  (of_uint63 (3 * 1000)%uint63 / of_uint63 60%uint63)%float.

(** [AVERAGE_STRIDE_LENGTH = 0.6], metres. *)
Definition AVERAGE_STRIDE_LENGTH : float := 0x1.3333333333333p-1%float.

Definition METADATA_ROUTE_POINTS_COUNT : nat := 4.

Definition points_to_query (points : list Point) : string :=
  let str_points :=
    map (fun point =>
           let (x, y) := point_coordinates point in
           (format_float self x ++ " " ++ format_float self y)%string)
        points in
  String.concat "," str_points.

(** Minutes. *)
Definition estimate_walking_time (point1 point2 : Point) : float :=
  (great_circle_meters self (point_coordinates point1) (point_coordinates point2)
   / SPEED)%float.

Definition serialize_linestring (linestring : LineString) : list LongLat :=
  map (fun position : Position =>
         {| longitude := fst position; latitude := snd position |})
      (linestring_coordinates linestring).

Definition get_points_for_round_route (start_point end_point : Point)
  : list Point :=
  let center_point_coordinates := get_center_of_points self start_point end_point in
  let normal_vector := get_normal_vector self start_point end_point in
  let second_point :=
    mkPoint ((fst center_point_coordinates + fst normal_vector)%float,
             (snd center_point_coordinates + snd normal_vector)%float) in
  let fourth_point :=
    mkPoint ((fst center_point_coordinates - fst normal_vector)%float,
             (snd center_point_coordinates - snd normal_vector)%float) in
  [start_point; second_point; end_point; fourth_point; start_point].

(** The three nested loops of [build_route]: every edge of every step of
    every leg, its geometry read and appended. *)
Definition collect_linestrings (legs : list Leg) : list LineString :=
  fold_left
    (fun linestrings leg =>
       fold_left
         (fun linestrings step =>
            fold_left
              (fun linestrings edge =>
                 linestrings
                   ++ [wkt_loads_linestring self (edge_geometry_selection edge)])
              (step_edges step) linestrings)
         (leg_steps leg) linestrings)
    legs [].

(** [for linestring in linestrings[:-1]: positions.extend(linestring['coordinates'][1:])] *)
Definition extend_positions (linestrings : list LineString) : list Position :=
  fold_left
    (fun final_linestring_positions linestring =>
       final_linestring_positions ++ tl (linestring_coordinates linestring))
    (removelast linestrings) [].

Definition build_route (points : list Point) (alternative : Z)
  : M World LineString :=
  let query_points := points_to_query points in
  response <- call (transport_calculate_directions (api self)
                      [("waypoints", PStr query_points);
                       ("edge_filter", PStr "pedestrian");
                       ("alternative", PInt alternative)]) ;;
  if negb (meta_code response =? 200) then
    raise (ValidationError (DirectionsResponse response))
  else
    item0 <- lift (subscript (result_items response) 0) ;;
    let legs := item_legs item0 in
    let linestrings := collect_linestrings legs in
    (* the first and the last edge are marks of length zero *)
    let final_linestring_positions := extend_positions linestrings in
    ret (mkLineString final_linestring_positions).

(** The points whose surroundings are looked up: all of them when there
    are at most four, else those at one, two and three quarters. *)
Definition metadata_route_points (route_points : list Point)
  : Outcome (list Point) :=
  let route_points_count := List.length route_points in
  if (route_points_count <=? METADATA_ROUTE_POINTS_COUNT)%nat then
    Return route_points
  else
    for_each
      (fun selected i =>
         obind (subscript route_points
                  (i * (route_points_count / METADATA_ROUTE_POINTS_COUNT))%nat)
               (fun point => Return (selected ++ [point])))
      (seq 1 (METADATA_ROUTE_POINTS_COUNT - 1)) [].

(** The body of the loop of [_get_route_points_metadata]. *)
Definition lookup_point_metadata (metadata : list Item) (point : Point)
  : M World (list Item) :=
  response <- call (geo_search (api self)
                      [("point",
                        PStr (let (x, y) := point_coordinates point in
                              (format_float self x ++ "," ++ format_float self y)%string));
                       ("fields", PStr "items.geometry.selection");
                       ("radius", PInt 100);
                       ("type", PStr "attraction,poi");
                       ("page_size", PInt 1)]) ;;
  if meta_code response =? 200 then
    item <- lift (subscript (result_items response) 0) ;;
    selection <- lift (getitem "geometry" (item_geometry item)) ;;
    let raw_point := wkt_loads_point self selection in
    let position := point_coordinates raw_point in
    let item :=
      set_point item
        (Normalized {| longitude := fst position; latitude := snd position |}) in
    ret (metadata ++ [item])
  else
    ret metadata.

Definition _get_route_points_metadata (route_points : list Point)
  : M World (list Item) :=
  selected <- lift (metadata_route_points route_points) ;;
  for_each_M lookup_point_metadata selected [].

(** The values of the dict are computed in the order they are written. *)
Definition prepare_route_response (walking_time : float)
  (route_points : list Point) (end_point_metadata : option Item)
  (alternatives_count : Z) : M World RouteResult :=
  let rounded_time := round_ndigits self walking_time 2 in
  linestring <- build_route route_points alternatives_count ;;
  metadata <- _get_route_points_metadata route_points ;;
  let steps :=
    round_int self (SPEED * walking_time / AVERAGE_STRIDE_LENGTH)%float in
  ret {| walking_time := rounded_time;
         route := serialize_linestring linestring;
         route_points := metadata;
         steps_count := steps;
         end_point_data := end_point_metadata |}.
End Methods.
End AbstractRouteView.

(** ** [class POIRouteView(AbstractRouteView)] *)

Module POIRouteView.
Import AbstractRouteView.
Section Methods.
Context {World : Type} (self : Env World).
Local Open Scope views_scope.

(** [OPTIMAL_WALK_TIME = 30], minutes. *)
Definition OPTIMAL_WALK_TIME : float := 30%float.

(** The doubles nearest to 0.029 and 0.019 are written in full. *)
Definition get_search_polygon (start_point : Point) : Point * Point :=
  let coordinates := point_coordinates start_point in
  let point1 := mkPoint ((fst coordinates - 0x1.db22d0e560419p-6)%float,
                         (snd coordinates + 0x1.374bc6a7ef9dbp-6)%float) in
  let point2 := mkPoint ((fst coordinates + 0x1.db22d0e560419p-6)%float,
                         (snd coordinates - 0x1.374bc6a7ef9dbp-6)%float) in
  (point1, point2).

(** A function that ends without [return] gives [None]. *)
Definition get_search_query_by_type (type : string) : option string :=
  if (type =? POIRouteSerializer.BAR)%string then Some "Бар"
  else if (type =? POIRouteSerializer.CULTURE)%string then Some "Театр"
  else if (type =? POIRouteSerializer.FOOD)%string then Some "Продукты"
  else if (type =? POIRouteSerializer.ROMANTIC)%string then Some "Кинотеатр"
  else if (type =? POIRouteSerializer.INVESTIGATE)%string then Some "Памятник"
  else None.

(** The three variables of the search loops: [optimal_point],
    [optimal_time], [metadata]. *)
Definition Best : Type := option Point * option float * option Item.

(** The test and the three assignments that end the body of both loops. *)
Definition keep_optimal (best : Best) (item : Item) (item_point : Point)
  (walking_time : float) : Best :=
  let '(optimal_point, optimal_time, metadata) := best in
  if match optimal_time with
     | None => true
     | Some optimal_time =>
         float_gt (math_fabs (optimal_time - OPTIMAL_WALK_TIME)%float)
                  (math_fabs (walking_time - OPTIMAL_WALK_TIME)%float)
     end
  then (Some item_point, Some walking_time, Some item)
  else best.

(** What both searches do after their loop. *)
Definition normalize_optimal (best : Best) : Outcome (Point * Item) :=
  let '(optimal_point, optimal_time, metadata) := best in
  obind (not_none optimal_point) (fun optimal_point =>
  let position := point_coordinates optimal_point in
  obind (not_none metadata) (fun metadata =>
  Return (optimal_point,
          set_point metadata
            (Normalized {| longitude := fst position;
                           latitude := snd position |})))).

(** [Point((raw_point['lon'], raw_point['lat']))] for [raw_point = item['point']] *)
Definition organization_item_point (item : Item) : Outcome Point :=
  obind (getitem "point" (item_point item)) (fun raw_point =>
  match raw_point with
  | LonLat lon lat => Return (mkPoint (lon, lat))
  | Normalized _ => Raise (KeyError "lon")
  end).

Definition search_optimal_organization_point (start_point : Point)
  (items : list Item) : Outcome (Point * Item) :=
  obind
    (for_each
       (fun best item =>
          obind (organization_item_point item) (fun item_point =>
          let walking_time :=
            (math_pi * estimate_walking_time self start_point item_point)%float in
          Return (keep_optimal best item item_point walking_time)))
       items (None, None, None))
    normalize_optimal.

(** [wkt.loads(item['geometry']['selection'])] *)
Definition geo_item_point (item : Item) : Outcome Point :=
  obind (getitem "geometry" (item_geometry item)) (fun selection =>
  Return (wkt_loads_point self selection)).

Definition search_optimal_geo_point (start_point : Point)
  (items : list Item) : Outcome (Point * Item) :=
  obind
    (for_each
       (fun best item =>
          obind (geo_item_point item) (fun item_point =>
          let walking_time :=
            (math_pi * estimate_walking_time self start_point item_point)%float in
          Return (keep_optimal best item item_point walking_time)))
       items (None, None, None))
    normalize_optimal.

(** The format ['{},{}'] applied to the two coordinates of [point]. *)
Definition format_point (point : Point) : string :=
  let (x, y) := point_coordinates point in
  (format_float self x ++ "," ++ format_float self y)%string.

(** [if query is not None: params['q'] = query] *)
Definition with_query (params : Params) (query : option string) : Params :=
  match query with
  | Some q => params ++ [("q", PStr q)]
  | None => params
  end.

Definition search_organization_point (start_point point1 point2 : Point)
  (query : option string) : M World (Point * Item) :=
  let params := [("point1", PStr (format_point point1));
                 ("point2", PStr (format_point point2));
                 ("fields", PStr "items.point");
                 ("type", PStr "attraction,building,poi")] in
  let params := with_query params query in
  response <- call (catalog_branch_search (api self) params) ;;
  if negb (meta_code response =? 200) then
    raise (ValidationError (SearchResponse response))
  else
    lift (search_optimal_organization_point start_point (result_items response)).

(** The result is [None] when the function ends without [return]. *)
Definition search_geo_point (start_point point1 point2 : Point)
  (query : option string) : M World (option (Point * Item)) :=
  let params := [("point1", PStr (format_point point1));
                 ("point2", PStr (format_point point2));
                 ("fields", PStr "items.geometry.selection");
                 ("type", PStr "attraction,building,poi")] in
  let params := with_query params query in
  response <- call (geo_search (api self) params) ;;
  if meta_code response =? 200 then
    result <- lift (search_optimal_geo_point start_point (result_items response)) ;;
    ret (Some result)
  else
    match query with
    | None => raise (ValidationError (SearchResponse response))
    | Some _ => ret None
    end.

Definition search_destination (start_point : Point) (type : string)
  : M World (Point * Item) :=
  let (point1, point2) := get_search_polygon start_point in
  let query := get_search_query_by_type type in
  result_point_data <- search_geo_point start_point point1 point2 query ;;
  match result_point_data with
  | None => search_organization_point start_point point1 point2 query
  | Some result_point_data => ret result_point_data
  end.

(** [serializer.data] of a valid request. *)
Record Data := mkData { data_point : LongLat; data_type : string }.

(** The request has passed [serializer.is_valid]; the line that prints the
    estimate is left out. *)
Definition post (data : Data) : M World RouteResult :=
  let raw_point := data_point data in
  let start_point := mkPoint (longitude raw_point, latitude raw_point) in
  '(end_point, metadata) <- search_destination start_point (data_type data) ;;
  let walking_time :=
    (math_pi * estimate_walking_time self start_point end_point)%float in
  prepare_route_response self walking_time
    (get_points_for_round_route self start_point end_point)
    (Some metadata) 0.
End Methods.
End POIRouteView.

(** ** [class ConcreteRouteView(AbstractRouteView)] *)

Module ConcreteRouteView.
Import AbstractRouteView.
Section Methods.
Context {World : Type} (self : Env World).
Local Open Scope views_scope.

Definition ALTERNATIVES_COUNT : Z := 5.

(** [serializer.data] of a valid request. *)
Record Data := mkData { data_start_point : LongLat; data_end_point : LongLat }.

(** The request has passed [serializer.is_valid]. *)
Definition post (data : Data) : M World RouteResult :=
  let raw_start_point := data_start_point data in
  let raw_end_point := data_end_point data in
  let start_point :=
    mkPoint (longitude raw_start_point, latitude raw_start_point) in
  let end_point := mkPoint (longitude raw_end_point, latitude raw_end_point) in
  let walking_time := estimate_walking_time self start_point end_point in
  prepare_route_response self walking_time [start_point; end_point] None
    ALTERNATIVES_COUNT.
End Methods.
End ConcreteRouteView.

(** ** Notions the properties are stated with *)

Import AbstractRouteView.
Import POIRouteView.

(** The directions query of [build_route]. *)
Definition directions_params {World} (self : Env World) (points : list Point)
  (alternative : Z) : Params :=
  [("waypoints", PStr (points_to_query self points));
   ("edge_filter", PStr "pedestrian");
   ("alternative", PInt alternative)].

(** The edges of a directions item, leg after leg and step after step. *)
Definition flatten_edges (legs : list Leg) : list Edge :=
  flat_map (fun leg => flat_map step_edges (leg_steps leg)) legs.

(** Their geometries, read from the WKT texts. *)
Definition edge_linestrings {World} (self : Env World) (legs : list Leg)
  : list LineString :=
  map (fun edge => wkt_loads_linestring self (edge_geometry_selection edge))
      (flatten_edges legs).

(** The points of the edges, the first point of each left out. *)
Definition tails (linestrings : list LineString) : list Position :=
  flat_map (fun linestring => tl (linestring_coordinates linestring)) linestrings.

(** The polyline as the specification words it: the first and the last
    edge dropped, the points of the others concatenated, the first point of
    each left out but for the first edge that is kept. *)
Definition spec_polyline (linestrings : list LineString) : list Position :=
  match removelast (tl linestrings) with
  | [] => []
  | first_kept :: others => linestring_coordinates first_kept ++ tails others
  end.

(** A directions response is successful when its status is 200 and it
    carries an item. *)
Definition successful (response : Response RouteItem) : Prop :=
  meta_code response = 200 /\ result_items response <> [].

(** The legs of the first item. *)
Definition response_legs (response : Response RouteItem) : list Leg :=
  match result_items response with
  | item :: _ => item_legs item
  | [] => []
  end.

(** The query that [search_destination] sends to the geo-search. *)
Definition geo_search_params {World} (self : Env World) (start_point : Point)
  (type : string) : Params :=
  with_query
    [("point1", PStr (format_point self (fst (get_search_polygon start_point))));
     ("point2", PStr (format_point self (snd (get_search_polygon start_point))));
     ("fields", PStr "items.geometry.selection");
     ("type", PStr "attraction,building,poi")]
    (get_search_query_by_type type).

(** The nearby lookup of [_get_route_points_metadata] for one point. *)
Definition nearby_params {World} (self : Env World) (point : Point) : Params :=
  [("point", PStr (format_point self point));
   ("fields", PStr "items.geometry.selection");
   ("radius", PInt 100);
   ("type", PStr "attraction,poi");
   ("page_size", PInt 1)].

(** The item of a successful lookup with its normalized ['point']. *)
Definition enriched {World} (self : Env World) (item : Item) (selection : string)
  : Item :=
  let position := point_coordinates (wkt_loads_point self selection) in
  set_point item
    (Normalized {| longitude := fst position; latitude := snd position |}).

(** The points that are looked up, as a list: all of them when there are
    at most four, else those at one, two and three quarters. *)
Definition quarter_points (route_points : list Point) : list Point :=
  let n := List.length route_points in
  if (n <=? 4)%nat then route_points
  else
    flat_map (fun i => match nth_error route_points (i * (n / 4)) with
                       | Some point => [point]
                       | None => []
                       end)
             [1; 2; 3]%nat.

(** A run of the lookups over the sampled points, from one state of the
    provider to another, with the items it gathers: a point whose lookup
    answers with another status than 200 gives no item and the run goes
    on. *)
Inductive Lookups {World} (self : Env World)
  : list Point -> World -> list Item -> World -> Prop :=
| lookups_done w : Lookups self [] w [] w
| lookups_omitted point points w response w1 items w2 :
    geo_search (api self) (nearby_params self point) w = (response, w1) ->
    meta_code response <> 200 ->
    Lookups self points w1 items w2 ->
    Lookups self (point :: points) w items w2
| lookups_enriched point points w response w1 item rest selection items w2 :
    geo_search (api self) (nearby_params self point) w = (response, w1) ->
    meta_code response = 200 ->
    result_items response = item :: rest ->
    item_geometry item = Some selection ->
    Lookups self points w1 items w2 ->
    Lookups self (point :: points) w (enriched self item selection :: items) w2.

(** The time of the walk to a candidate, [math.pi] times the estimate. *)
Definition walk_minutes {World} (self : Env World) (start_point p : Point)
  : float :=
  (math_pi * estimate_walking_time self start_point p)%float.

(** How far the time of the walk to a candidate is from the target, as the
    specification words it, every operation and constant written out: the
    absolute value of pi times the estimate minus thirty minutes, the
    estimate being the distance in metres over the fifty metres a minute of
    three kilometres an hour. Nothing of the views is used here but the
    distance of the environment. *)
Definition off_target {World} (self : Env World) (start_point p : Point)
  : float :=
  abs (0x1.921fb54442d18p+1
       * (great_circle_meters self (point_coordinates start_point)
            (point_coordinates p) / 50)
       - 30)%float.

(** The ['point'] that both searches give to the candidate they return. *)
Definition normalized (item : Item) (p : Point) : Item :=
  set_point item
    (Normalized {| longitude := fst (point_coordinates p);
                   latitude := snd (point_coordinates p) |}).

(** The candidate at index [i], of point [p], is the choice among the
    candidates of points [points]: it is at least as near to the target as
    every one of them, and every one before it is strictly farther. *)
Definition Chosen {World} (self : Env World) (start_point : Point)
  (items : list Item) (points : list Point) (i : nat) (item : Item) (p : Point)
  : Prop :=
  nth_error items i = Some item
  /\ nth_error points i = Some p
  /\ (forall j q, nth_error points j = Some q ->
        (off_target self start_point p <=? off_target self start_point q)%float
          = true)
  /\ (forall j q, (j < i)%nat -> nth_error points j = Some q ->
        (off_target self start_point p <? off_target self start_point q)%float
          = true).

(** An item carries the normalized ['point'] of its own geometry. *)
Definition point_from_geometry {World} (self : Env World) (item : Item) : Prop :=
  exists selection,
    item_geometry item = Some selection
    /\ item_point item
       = Some (Normalized
                 {| longitude :=
                      fst (point_coordinates (wkt_loads_point self selection));
                    latitude :=
                      snd (point_coordinates (wkt_loads_point self selection)) |}).

(** The query that [search_destination] sends to the catalog search. *)
Definition catalog_search_params {World} (self : Env World)
  (start_point : Point) (type : string) : Params :=
  with_query
    [("point1", PStr (format_point self (fst (get_search_polygon start_point))));
     ("point2", PStr (format_point self (snd (get_search_polygon start_point))));
     ("fields", PStr "items.point");
     ("type", PStr "attraction,building,poi")]
    (get_search_query_by_type type).

(** The item has a ['point'] with the keys ['lon'] and ['lat']. *)
Definition has_lon_lat (item : Item) : Prop :=
  exists lon lat, item_point item = Some (LonLat lon lat).

(** The item has a ['geometry']. *)
Definition has_geometry (item : Item) : Prop :=
  exists selection, item_geometry item = Some selection.

(** ** A scripted provider

    A provider whose state is the script of the answers it still has to
    give, one queue for each operation; asked beyond its script it answers
    with status 500 and no item. The examples below run the views against
    it. *)

Module Scripted.
Record World := mkWorld {
  directions_script : list (Response RouteItem);
  geo_script : list (Response Item);
  catalog_script : list (Response Item)
}.

Definition unavailable {I} : Response I :=
  {| meta_code := 500; result_items := [] |}.

Definition calculate_directions (_ : Params) (w : World)
  : Response RouteItem * World :=
  match directions_script w with
  | r :: rest => (r, {| directions_script := rest;
                        geo_script := geo_script w;
                        catalog_script := catalog_script w |})
  | [] => (unavailable, w)
  end.

Definition geo (_ : Params) (w : World) : Response Item * World :=
  match geo_script w with
  | r :: rest => (r, {| directions_script := directions_script w;
                        geo_script := rest;
                        catalog_script := catalog_script w |})
  | [] => (unavailable, w)
  end.

Definition catalog (_ : Params) (w : World) : Response Item * World :=
  match catalog_script w with
  | r :: rest => (r, {| directions_script := directions_script w;
                        geo_script := geo_script w;
                        catalog_script := rest |})
  | [] => (unavailable, w)
  end.

Definition client : Api World :=
  {| transport_calculate_directions := calculate_directions;
     geo_search := geo;
     catalog_branch_search := catalog |}.

(** The WKT texts of the examples with what [wkt.loads] reads in them. *)
Definition linestrings : list (string * list Position) :=
  [("LINESTRING (0 0, 0 0)", [(0, 0); (0, 0)]);
   ("LINESTRING (1 0, 1 0)", [(1, 0); (1, 0)]);
   ("LINESTRING (1 0, 2 0)", [(1, 0); (2, 0)]);
   ("LINESTRING (1 0, 1 1, 2 1)", [(1, 0); (1, 1); (2, 1)]);
   ("LINESTRING (2 0, 3 0)", [(2, 0); (3, 0)]);
   ("LINESTRING (2 1, 3 1)", [(2, 1); (3, 1)]);
   ("LINESTRING (3 0, 3 0)", [(3, 0); (3, 0)]);
   ("LINESTRING (3 1, 3 1)", [(3, 1); (3, 1)])]%float.

Definition points : list (string * Position) :=
  [("POINT (1 0)", (1, 0));
   ("POINT (2 0)", (2, 0));
   ("POINT (3 0)", (3, 0));
   ("POINT (1 1)", (1, 1))]%float.

Fixpoint lookup {A} (table : list (string * A)) (text : string) : option A :=
  match table with
  | [] => None
  | (key, value) :: table' =>
      if (key =? text)%string then Some value else lookup table' text
  end.

Definition loads_linestring (text : string) : LineString :=
  mkLineString (match lookup linestrings text with
                | Some positions => positions
                | None => []
                end).

Definition loads_point (text : string) : Point :=
  mkPoint (match lookup points text with
           | Some position => position
           | None => (0, 0)%float
           end).

(** The integer nearest to a float, the even one of two that are as near;
    zero for what is no number. *)
Definition nearest_integer (x : float) : Z :=
  match Prim2SF x with
  | S754_finite negative m e =>
      let magnitude :=
        if 0 <=? e then Z.pos m * 2 ^ e
        else
          let unit := 2 ^ (- e) in
          let q := Z.pos m / unit in
          let r := Z.pos m mod unit in
          if 2 * r <? unit then q
          else if unit <? 2 * r then q + 1
          else if Z.even q then q else q + 1 in
      if negative then - magnitude else magnitude
  | _ => 0
  end.

(** A float from a small integer. *)
Definition float_of_Z (n : Z) : float :=
  if n <? 0 then (- of_uint63 (Uint63.of_Z (- n)))%float
  else of_uint63 (Uint63.of_Z n).

(** Rounding to [ndigits] decimals through the scaled value. *)
Definition round_decimals (x : float) (ndigits : Z) : float :=
  let scale := float_of_Z (10 ^ ndigits) in
  (float_of_Z (nearest_integer (x * scale)) / scale)%float.

(** A stand-in for the distance: a thousand metres for a unit of
    longitude or latitude, along the axes. *)
Definition taxicab_meters (c1 c2 : Position) : float :=
  ((abs (fst c1 - fst c2) + abs (snd c1 - snd c2)) * 1000)%float.

(** A stand-in for the formatting of a float: its nearest integer in
    digits. *)
Definition show_float (x : float) : string :=
  let n := nearest_integer x in
  if n =? 0 then "0" else if n =? 1 then "1" else if n =? 2 then "2"
  else if n =? 3 then "3" else "9".

Definition midpoint (p1 p2 : Point) : Position :=
  (((fst (point_coordinates p1) + fst (point_coordinates p2)) / 2)%float,
   ((snd (point_coordinates p1) + snd (point_coordinates p2)) / 2)%float).

Definition normal (p1 p2 : Point) : Position :=
  ((snd (point_coordinates p1) - snd (point_coordinates p2))%float,
   (fst (point_coordinates p2) - fst (point_coordinates p1))%float).

Definition env : Env World :=
  {| api := client;
     great_circle_meters := taxicab_meters;
     wkt_loads_linestring := loads_linestring;
     wkt_loads_point := loads_point;
     format_float := show_float;
     round_ndigits := round_decimals;
     round_int := nearest_integer;
     get_center_of_points := midpoint;
     get_normal_vector := normal |}.

(** A directions response with one item, one leg, one step and the edges
    of the given WKT texts. *)
Definition directions (status : Z) (texts : list string) : Response RouteItem :=
  {| meta_code := status;
     result_items :=
       [ {| item_legs := [ {| leg_steps := [ {| step_edges := map mkEdge texts |} ] |} ] |} ] |}.

Definition route_of (status : Z) (texts : list string) : World :=
  {| directions_script := [directions status texts];
     geo_script := [];
     catalog_script := [] |}.
End Scripted.

(** ** The examples

    The answers and the requests that the properties below are tried on. *)

(** The scenario of the specification: four edges, the first and the last
    of length zero. *)
Definition four_edges : list string :=
  ["LINESTRING (1 0, 1 0)"; "LINESTRING (1 0, 1 1, 2 1)";
   "LINESTRING (2 1, 3 1)"; "LINESTRING (3 1, 3 1)"].

(** The same scenario with the first mark set on the requested point, off
    the start of the walk. *)
Definition four_edges_mark_apart : list string :=
  ["LINESTRING (0 0, 0 0)"; "LINESTRING (1 0, 2 0)";
   "LINESTRING (2 0, 3 0)"; "LINESTRING (3 0, 3 0)"].

Definition two_edges : list string :=
  ["LINESTRING (1 0, 1 0)"; "LINESTRING (1 0, 2 0)"].

(** A search item of the catalog: its name and its ['point']. *)
Definition branch (name : string) (lon lat : float) : Item :=
  {| item_fields := [("name", name)];
     item_geometry := None;
     item_point := Some (LonLat lon lat) |}.

Definition not_found : Response Item :=
  {| meta_code := 404; result_items := [] |}.

(** The geo-search finds nothing, the catalog knows one bar. *)
Definition geo_fails_catalog_answers : Scripted.World :=
  {| Scripted.directions_script := [];
     Scripted.geo_script := [not_found];
     Scripted.catalog_script :=
       [ {| meta_code := 200; result_items := [branch "Bar" 1 0] |} ] |}.

(** A landmark of the geo-search: its name and its geometry. *)
Definition landmark (name selection : string) : Item :=
  {| item_fields := [("name", name)];
     item_geometry := Some selection;
     item_point := None |}.

(** A walk of four edges; the lookup near the first point finds nothing,
    the one near the second finds a fountain. *)
Definition walk_with_fountain : Scripted.World :=
  {| Scripted.directions_script := [Scripted.directions 200 four_edges];
     Scripted.geo_script :=
       [not_found;
        {| meta_code := 200;
           result_items := [landmark "Fountain" "POINT (3 0)"] |}];
     Scripted.catalog_script := [] |}.

Definition walk_ends : list Point := [mkPoint (1, 0); mkPoint (3, 1)]%float.

(** Nothing is left of the script after the walk. *)
Definition script_over : Scripted.World :=
  {| Scripted.directions_script := [];
     Scripted.geo_script := [];
     Scripted.catalog_script := [] |}.

(** The geo-search knows a monument three units east; the walk there has
    four edges and the lookups around it find nothing. *)
Definition monument_east : Scripted.World :=
  {| Scripted.directions_script := [Scripted.directions 200 four_edges];
     Scripted.geo_script :=
       [ {| meta_code := 200;
            result_items := [landmark "Monument" "POINT (3 0)"] |} ];
     Scripted.catalog_script := [] |}.

(** Four places that carry both a geometry and a ['point'], seen from
    (1.5, 0): their walks take 94.2, 31.4, 31.4 and 94.2 minutes. The
    second is the first of the two that are nearest to thirty. *)
Definition place (name selection : string) (lon lat : float) : Item :=
  {| item_fields := [("name", name)];
     item_geometry := Some selection;
     item_point := Some (LonLat lon lat) |}.

Definition places : list Item :=
  [place "Harbour" "POINT (3 0)" 3 0; place "Old Mill" "POINT (1 0)" 1 0;
   place "Town Hall" "POINT (2 0)" 2 0; place "Hill" "POINT (1 1)" 1 1].

Definition places_points : list Point :=
  [mkPoint (3, 0); mkPoint (1, 0); mkPoint (2, 0); mkPoint (1, 1)]%float.

(** The directions are refused; the two lookups would have been answered. *)
Definition directions_refused : Scripted.World :=
  {| Scripted.directions_script := [Scripted.directions 404 []];
     Scripted.geo_script :=
       [ {| meta_code := 200;
            result_items := [landmark "Fountain" "POINT (3 0)"] |} ];
     Scripted.catalog_script := [] |}.

(** A walk of four edges; the lookup near the first point finds nothing,
    the one near the second is answered with status 200 and no item. *)
Definition walk_with_empty_answer : Scripted.World :=
  {| Scripted.directions_script := [Scripted.directions 200 four_edges];
     Scripted.geo_script :=
       [not_found; {| meta_code := 200; result_items := [] |}];
     Scripted.catalog_script := [] |}.

(** Six points on a line. *)
Definition six_points : list Point :=
  [mkPoint (0, 0); mkPoint (1, 0); mkPoint (2, 0); mkPoint (3, 0);
   mkPoint (4, 0); mkPoint (5, 0)]%float.

(** The geo-search is answered with status 200 and no item; the catalog
    knows a bar. *)
Definition geo_answers_nothing : Scripted.World :=
  {| Scripted.directions_script := [];
     Scripted.geo_script := [ {| meta_code := 200; result_items := [] |} ];
     Scripted.catalog_script :=
       [ {| meta_code := 200; result_items := [branch "Bar" 1 0] |} ] |}.

(** Neither search finds anything. *)
Definition both_searches_fail : Scripted.World :=
  {| Scripted.directions_script := [];
     Scripted.geo_script := [not_found];
     Scripted.catalog_script := [ {| meta_code := 403; result_items := [] |} ] |}.

(** A town seen from the origin: an inn at 62.8 minutes, a shop at 15.7
    minutes, and two cafes at 31.4 minutes each. The shop is the shortest
    walk and the inn the longest; the first cafe is the nearest to thirty
    minutes and comes before the second. *)
Definition town_points : list (string * Position) :=
  [("POINT (1 0)", (1, 0)); ("POINT (0.25 0)", (0.25, 0));
   ("POINT (0.5 0)", (0.5, 0)); ("POINT (0 0.5)", (0, 0.5))]%float.

Definition town : Env Scripted.World :=
  {| api := Scripted.client;
     great_circle_meters := Scripted.taxicab_meters;
     wkt_loads_linestring := Scripted.loads_linestring;
     wkt_loads_point :=
       fun text => mkPoint (match Scripted.lookup town_points text with
                            | Some position => position
                            | None => (0, 0)%float
                            end);
     format_float := Scripted.show_float;
     round_ndigits := Scripted.round_decimals;
     round_int := Scripted.nearest_integer;
     get_center_of_points := Scripted.midpoint;
     get_normal_vector := Scripted.normal |}.

Definition origin : Point := mkPoint (0, 0)%float.

Definition inn : Item := place "Far Inn" "POINT (1 0)" 1 0.
Definition shop : Item := place "Corner Shop" "POINT (0.25 0)" 0.25 0.
Definition first_cafe : Item := place "Cafe Half Way" "POINT (0.5 0)" 0.5 0.
Definition second_cafe : Item := place "Cafe Side Street" "POINT (0 0.5)" 0 0.5.

Definition stops : list Item := [inn; shop; first_cafe; second_cafe].

Definition stops_points : list Point :=
  [mkPoint (1, 0); mkPoint (0.25, 0); mkPoint (0.5, 0); mkPoint (0, 0.5)]%float.

(** ** The route assembler *)

Unset Implicit Arguments.

Section Loops.
Context {A B : Type}.

(** A loop that appends to its accumulator what it makes of each element
    builds the concatenation. *)
Lemma fold_left_extend (body : list B -> A -> list B) (h : A -> list B) :
  (forall acc x, body acc x = acc ++ h x) ->
  forall xs acc, fold_left body xs acc = acc ++ flat_map h xs.
Proof.
  intros Hbody xs; induction xs as [|x xs IH]; intros acc; simpl.
  - now rewrite app_nil_r.
  - now rewrite IH, Hbody, app_assoc.
Qed.

Lemma flat_map_singleton (g : A -> B) (xs : list A) :
  flat_map (fun x => [g x]) xs = map g xs.
Proof. induction xs as [|x xs IH]; simpl; congruence. Qed.

Lemma map_flat_map {C} (g : A -> B) (f : C -> list A) (xs : list C) :
  map g (flat_map f xs) = flat_map (fun x => map g (f x)) xs.
Proof.
  induction xs as [|x xs IH]; simpl; [reflexivity|].
  now rewrite map_app, IH.
Qed.
End Loops.

Section Assembler.
Context {World : Type} (self : Env World).

Lemma collect_linestrings_flatten (legs : list Leg) :
  collect_linestrings self legs = edge_linestrings self legs.
Proof.
  unfold collect_linestrings, edge_linestrings, flatten_edges.
  rewrite fold_left_extend with
    (h := fun leg =>
            flat_map (fun step =>
                        map (fun edge =>
                               wkt_loads_linestring self (edge_geometry_selection edge))
                            (step_edges step))
                     (leg_steps leg)).
  - simpl. rewrite map_flat_map. apply flat_map_ext; intros leg.
    now rewrite map_flat_map.
  - intros acc leg. apply fold_left_extend. intros acc' step.
    rewrite fold_left_extend with
      (h := fun edge =>
              [wkt_loads_linestring self (edge_geometry_selection edge)]);
      [|reflexivity].
    now rewrite flat_map_singleton.
Qed.

Lemma extend_positions_tails (linestrings : list LineString) :
  extend_positions linestrings = tails (removelast linestrings).
Proof.
  unfold extend_positions, tails.
  now rewrite fold_left_extend with
    (h := fun linestring => tl (linestring_coordinates linestring)).
Qed.

(** What [build_route] does with the answer of the provider. *)
Lemma build_route_answer points alternative w response w' :
  transport_calculate_directions (api self)
    (directions_params self points alternative) w = (response, w') ->
  build_route self points alternative w =
    if meta_code response =? 200 then
      match result_items response with
      | item :: _ =>
          (Return (mkLineString
                     (tails (removelast (edge_linestrings self (item_legs item))))),
           w')
      | [] => (Raise IndexError, w')
      end
    else (Raise (ValidationError (DirectionsResponse response)), w').
Proof.
  intros Hcall. unfold build_route, bind, call, directions_params in *.
  rewrite Hcall. destruct (meta_code response =? 200); simpl; [|reflexivity].
  unfold lift, subscript. destruct (result_items response) as [|item rest]; simpl.
  - reflexivity.
  - unfold ret. now rewrite extend_positions_tails, collect_linestrings_flatten.
Qed.

Lemma build_route_successful points alternative w response w' :
  transport_calculate_directions (api self)
    (directions_params self points alternative) w = (response, w') ->
  successful response ->
  build_route self points alternative w =
    (Return (mkLineString
               (tails (removelast (edge_linestrings self (response_legs response))))),
     w').
Proof.
  intros Hcall [Hcode Hitems]. rewrite (build_route_answer _ _ _ _ _ Hcall).
  rewrite Hcode. simpl. unfold response_legs.
  destruct (result_items response); [contradiction|reflexivity].
Qed.
End Assembler.

(** C1, as the code has it. For every successful directions response,
    [build_route] drops the last edge only and concatenates the points of
    every edge it keeps, the first one too, without the first point of
    each. When there are exactly four edges and the first is a mark of two
    points that ends where the second edge starts, this is the points of
    the two middle edges, the junction taken once. *)
Theorem build_route_drops_last_edge_only :
  forall {World} (self : Env World) points alternative w response w',
    transport_calculate_directions (api self)
      (directions_params self points alternative) w = (response, w') ->
    successful response ->
    let linestrings := edge_linestrings self (response_legs response) in
    build_route self points alternative w =
      (Return (mkLineString (tails (removelast linestrings))), w')
    /\ (forall p q first second last,
          linestrings = [mkLineString [p; q]; first; second; last] ->
          hd_error (linestring_coordinates first) = Some q ->
          tails (removelast linestrings) =
            linestring_coordinates first ++ tl (linestring_coordinates second)
          /\ tails (removelast linestrings) = spec_polyline linestrings).
Proof.
  intros World self points alternative w response w' Hcall Hok linestrings.
  split.
  - now apply build_route_successful.
  - intros p q first second last -> Hhd.
    unfold spec_polyline, tails; simpl. rewrite app_nil_r.
    destruct (linestring_coordinates first) as [|c cs]; [discriminate|].
    injection Hhd as ->. split; reflexivity.
Qed.

Lemma build_route_drops_last_edge_only_witness :
  successful (Scripted.directions 200 four_edges)
  /\ fst (build_route Scripted.env [mkPoint (1, 0); mkPoint (3, 1)]%float 0
            (Scripted.route_of 200 four_edges))
     = Return (mkLineString [(1, 0); (1, 1); (2, 1); (3, 1)]%float)
  /\ [(1, 0); (1, 1); (2, 1); (3, 1)]%float
     = spec_polyline
         (edge_linestrings Scripted.env
            (response_legs (Scripted.directions 200 four_edges))).
Proof.
  assert (Hok : successful (Scripted.directions 200 four_edges))
    by (split; [reflexivity | discriminate]).
  split; [exact Hok|].
  destruct (build_route_drops_last_edge_only Scripted.env
              [mkPoint (1, 0); mkPoint (3, 1)]%float 0
              (Scripted.route_of 200 four_edges) _ _ eq_refl Hok)
    as [Hroute Hmarks].
  split.
  - rewrite Hroute. reflexivity.
  - exact (proj2 (Hmarks _ _ _ _ _ eq_refl eq_refl)).
Defined.

(** C1, as the specification states it, fails: the first edge is not
    dropped, its second point opens the polyline, and the first point of
    the second edge is left out. *)
Lemma build_route_keeps_first_edge :
  let w := Scripted.route_of 200 four_edges_mark_apart in
  let response := Scripted.directions 200 four_edges_mark_apart in
  let linestrings := edge_linestrings Scripted.env (response_legs response) in
  successful response
  /\ List.length linestrings = 4%nat
  /\ fst (build_route Scripted.env [mkPoint (0, 0); mkPoint (3, 0)]%float 0 w)
     = Return (mkLineString [(0, 0); (2, 0); (3, 0)]%float)
  /\ spec_polyline linestrings = [(1, 0); (2, 0); (3, 0)]%float
  /\ fst (build_route Scripted.env [mkPoint (0, 0); mkPoint (3, 0)]%float 0 w)
     <> Return (mkLineString (spec_polyline linestrings)).
Proof.
  repeat split; try reflexivity; try discriminate.
Qed.

(** C3, as the code has it. For every successful directions response with
    fewer than three edges [build_route] does not fail: it returns the
    polyline of the edges but the last, each without its first point, which
    is empty when there is no edge or one. *)
Theorem build_route_few_edges_returns :
  forall {World} (self : Env World) points alternative w response w',
    transport_calculate_directions (api self)
      (directions_params self points alternative) w = (response, w') ->
    successful response ->
    (List.length (flatten_edges (response_legs response)) < 3)%nat ->
    build_route self points alternative w =
      (Return (mkLineString
                 match edge_linestrings self (response_legs response) with
                 | [first; _] => tl (linestring_coordinates first)
                 | _ => []
                 end),
       w').
Proof.
  intros World self points alternative w response w' Hcall Hok Hfew.
  rewrite (build_route_successful self _ _ _ _ _ Hcall Hok).
  unfold edge_linestrings in *.
  destruct (flatten_edges (response_legs response)) as [|e1 [|e2 [|e3 rest]]];
    simpl in *; try reflexivity.
  - unfold tails; simpl. now rewrite app_nil_r.
  - lia.
Qed.

Lemma build_route_few_edges_returns_witness :
  successful (Scripted.directions 200 two_edges)
  /\ (List.length (flatten_edges (response_legs (Scripted.directions 200 two_edges)))
      < 3)%nat
  /\ fst (build_route Scripted.env [mkPoint (1, 0); mkPoint (2, 0)]%float 0
            (Scripted.route_of 200 two_edges))
     = Return (mkLineString [(1, 0)]%float).
Proof.
  assert (Hok : successful (Scripted.directions 200 two_edges))
    by (split; [reflexivity | discriminate]).
  assert (Hfew : (List.length (flatten_edges
                                 (response_legs (Scripted.directions 200 two_edges)))
                  < 3)%nat) by (vm_compute; lia).
  split; [exact Hok|]. split; [exact Hfew|].
  rewrite (build_route_few_edges_returns Scripted.env
             [mkPoint (1, 0); mkPoint (2, 0)]%float 0
             (Scripted.route_of 200 two_edges) _ _ eq_refl Hok Hfew).
  reflexivity.
Defined.

(** C3, as the specification states it, fails: with two edges the route is
    returned, no exception is raised. *)
Lemma build_route_two_edges_no_error :
  let response := Scripted.directions 200 two_edges in
  successful response
  /\ (List.length (flatten_edges (response_legs response)) <= 2)%nat
  /\ fst (build_route Scripted.env [mkPoint (1, 0); mkPoint (2, 0)]%float 0
            (Scripted.route_of 200 two_edges))
     = Return (mkLineString [(1, 0)]%float)
  /\ ~ (exists e,
          fst (build_route Scripted.env [mkPoint (1, 0); mkPoint (2, 0)]%float 0
                 (Scripted.route_of 200 two_edges)) = Raise e).
Proof.
  cbv zeta. split; [split; [reflexivity | discriminate]|].
  split; [vm_compute; lia|]. split; [reflexivity|].
  intros [e He]. vm_compute in He. discriminate He.
Qed.


(** ** The destination search *)

(** C2, as the code has it. When the geo-search answers with a status
    other than 200: if the category gives no search term, the search fails
    with the validation error that carries the answer; if it gives one, the
    search goes on with the catalog search over the same rectangle and with
    the same term. *)
Theorem search_destination_geo_failure :
  forall {World} (self : Env World) start_point type w response w',
    geo_search (api self) (geo_search_params self start_point type) w
      = (response, w') ->
    meta_code response <> 200 ->
    match get_search_query_by_type type with
    | None =>
        search_destination self start_point type w
          = (Raise (ValidationError (SearchResponse response)), w')
    | Some q =>
        search_destination self start_point type w
          = search_organization_point self start_point
              (fst (get_search_polygon start_point))
              (snd (get_search_polygon start_point)) (Some q) w'
    end.
Proof.
  intros World self start_point type w response w' Hcall Hcode.
  apply Z.eqb_neq in Hcode.
  unfold search_destination, geo_search_params in *.
  destruct (get_search_polygon start_point) as [point1 point2]; simpl in *.
  unfold search_geo_point, bind, call.
  destruct (get_search_query_by_type type) as [q|];
    simpl in *; rewrite Hcall, Hcode; reflexivity.
Qed.

Lemma search_destination_geo_failure_witness :
  search_destination Scripted.env (mkPoint (0, 0)%float) "bar"
    geo_fails_catalog_answers
  = search_organization_point Scripted.env (mkPoint (0, 0)%float)
      (fst (get_search_polygon (mkPoint (0, 0)%float)))
      (snd (get_search_polygon (mkPoint (0, 0)%float)))
      (Some "Бар")
      {| Scripted.directions_script := [];
         Scripted.geo_script := [];
         Scripted.catalog_script :=
           [ {| meta_code := 200; result_items := [branch "Bar" 1 0] |} ] |}.
Proof.
  assert (Hcode : meta_code not_found <> 200) by discriminate.
  exact (search_destination_geo_failure Scripted.env (mkPoint (0, 0)%float)
           "bar" geo_fails_catalog_answers _ _ eq_refl Hcode).
Defined.

(** C2, as the specification states it, fails both ways. With a search
    term (category "bar") and a geo-search that answers 404, the search does
    not fail: it returns the bar of the catalog. With no search term (a
    category outside the five) and the same answer, there is no fallback:
    the search fails with the validation error and the catalog is not
    asked. *)
Lemma search_destination_fallback_needs_term :
  get_search_query_by_type "bar" = Some "Бар"
  /\ fst (search_destination Scripted.env (mkPoint (0, 0)%float) "bar"
            geo_fails_catalog_answers)
     = Return (mkPoint (1, 0)%float,
               set_point (branch "Bar" 1 0)
                 (Normalized {| longitude := 1; latitude := 0 |}))
  /\ ~ (exists e,
          fst (search_destination Scripted.env (mkPoint (0, 0)%float) "bar"
                 geo_fails_catalog_answers) = Raise e)
  /\ get_search_query_by_type "stroll" = None
  /\ search_destination Scripted.env (mkPoint (0, 0)%float) "stroll"
       geo_fails_catalog_answers
     = (Raise (ValidationError (SearchResponse not_found)),
        {| Scripted.directions_script := [];
           Scripted.geo_script := [];
           Scripted.catalog_script :=
             [ {| meta_code := 200; result_items := [branch "Bar" 1 0] |} ] |})
  /\ search_destination Scripted.env (mkPoint (0, 0)%float) "stroll"
       geo_fails_catalog_answers
     <> search_organization_point Scripted.env (mkPoint (0, 0)%float)
          (fst (get_search_polygon (mkPoint (0, 0)%float)))
          (snd (get_search_polygon (mkPoint (0, 0)%float)))
          None
          {| Scripted.directions_script := [];
             Scripted.geo_script := [];
             Scripted.catalog_script :=
               [ {| meta_code := 200; result_items := [branch "Bar" 1 0] |} ] |}.
Proof.
  split; [reflexivity|]. split; [reflexivity|]. split.
  { intros [e He]. vm_compute in He. discriminate He. }
  split; [reflexivity|]. split; [reflexivity|].
  vm_compute. discriminate.
Qed.

(** C4. On an empty list of candidates both searches of the best
    candidate fail: [optimal_point] is still [None] when its coordinates are
    asked for, whatever the start point. *)
Theorem search_optimal_empty_fails :
  forall {World} (self : Env World) start_point,
    search_optimal_organization_point self start_point [] = Raise TypeError
    /\ search_optimal_geo_point self start_point [] = Raise TypeError.
Proof.
  intros World self start_point. split; reflexivity.
Qed.

(** ** The loop of the category flow *)

(** C6. For every pair of points the loop waypoints are the five points
    start, centre plus normal vector, end, centre minus normal vector,
    start; the first and the last are the start point. *)
Theorem get_points_for_round_route_loop :
  forall {World} (self : Env World) start_point end_point,
    let center := get_center_of_points self start_point end_point in
    let normal := get_normal_vector self start_point end_point in
    let route_points := get_points_for_round_route self start_point end_point in
    route_points =
      [start_point;
       mkPoint ((fst center + fst normal)%float, (snd center + snd normal)%float);
       end_point;
       mkPoint ((fst center - fst normal)%float, (snd center - snd normal)%float);
       start_point]
    /\ List.length route_points = 5%nat
    /\ hd_error route_points = Some start_point
    /\ last route_points end_point = start_point.
Proof.
  intros World self start_point end_point. repeat split.
Qed.

(** ** The response builder *)

Section Builder.
Context {World : Type} (self : Env World).

(** Three quarters of a length that exceeds four fall inside the list. *)
Lemma quarter_index_in_range (n i : nat) :
  (4 < n)%nat -> (i <= 3)%nat -> (i * (n / 4) < n)%nat.
Proof.
  intros Hn Hi.
  pose proof (Nat.div_mod_eq n 4) as Hdiv.
  pose proof (Nat.mod_upper_bound n 4 ltac:(lia)) as Hmod.
  assert (1 <= n / 4)%nat by (apply Nat.div_le_lower_bound; lia).
  nia.
Qed.

(** The selection of the points never raises. *)
Lemma metadata_route_points_returns (route_points : list Point) :
  metadata_route_points route_points = Return (quarter_points route_points).
Proof.
  unfold metadata_route_points, quarter_points, METADATA_ROUTE_POINTS_COUNT.
  destruct (List.length route_points <=? 4)%nat eqn:Hle; [reflexivity|].
  apply Nat.leb_gt in Hle.
  assert (Hin : forall i, (i <= 3)%nat ->
            exists point,
              nth_error route_points (i * (List.length route_points / 4))
                = Some point).
  { intros i Hi.
    destruct (nth_error route_points (i * (List.length route_points / 4)))
      as [point|] eqn:Hnth; [now exists point|].
    apply nth_error_None in Hnth.
    pose proof (quarter_index_in_range _ _ Hle Hi). lia. }
  destruct (Hin 1%nat ltac:(lia)) as [p1 H1].
  destruct (Hin 2%nat ltac:(lia)) as [p2 H2].
  destruct (Hin 3%nat ltac:(lia)) as [p3 H3].
  cbn [seq Nat.sub for_each flat_map]. unfold subscript.
  rewrite H1, H2, H3. reflexivity.
Qed.

(** The loop of the lookups follows the run, whatever it had gathered. *)
Lemma lookups_loop points w items w2 :
  Lookups self points w items w2 ->
  forall metadata,
    for_each_M (lookup_point_metadata self) points metadata w
      = (Return (metadata ++ items), w2).
Proof.
  induction 1 as [w
                 |point points w response w1 items w2 Hcall Hcode _ IH
                 |point points w response w1 item rest selection items w2
                    Hcall Hcode Hitems Hgeometry _ IH];
    intros metadata.
  - simpl. unfold ret. now rewrite app_nil_r.
  - apply Z.eqb_neq in Hcode.
    cbn [for_each_M]. unfold bind at 1.
    unfold lookup_point_metadata, bind, call, nearby_params, format_point in *.
    rewrite Hcall, Hcode. unfold ret. apply IH.
  - apply Z.eqb_eq in Hcode.
    cbn [for_each_M]. unfold bind at 1.
    unfold lookup_point_metadata, bind, call, nearby_params, format_point in *.
    rewrite Hcall, Hcode, Hitems. cbn. rewrite Hgeometry. cbn.
    rewrite IH. now rewrite <- app_assoc.
Qed.

Lemma get_route_points_metadata_run route_points w items w2 :
  Lookups self (quarter_points route_points) w items w2 ->
  _get_route_points_metadata self route_points w = (Return items, w2).
Proof.
  intros Hrun. unfold _get_route_points_metadata, bind, lift.
  rewrite metadata_route_points_returns.
  now rewrite (lookups_loop _ _ _ _ Hrun).
Qed.

(** The fields of the result, when the route is built and the lookups run. *)
Lemma prepare_route_response_fields minutes waypoints end_point_metadata
  alternatives_count w result w' :
  prepare_route_response self minutes waypoints end_point_metadata
    alternatives_count w = (Return result, w') ->
  walking_time result = round_ndigits self minutes 2
  /\ steps_count result
     = round_int self (SPEED * minutes / AVERAGE_STRIDE_LENGTH)%float
  /\ end_point_data result = end_point_metadata.
Proof.
  unfold prepare_route_response, bind, ret.
  destruct (build_route self waypoints alternatives_count w)
    as [[linestring|e] w1]; [|discriminate].
  destruct (_get_route_points_metadata self waypoints w1)
    as [[metadata|e] w2]; [|discriminate].
  intros Hresult. injection Hresult as <- _. repeat split.
Qed.
End Builder.

(** C7. For every walking time, the step count of the result is
    [round(SPEED * walking_time / AVERAGE_STRIDE_LENGTH)], with [SPEED] the
    fifty metres a minute of three kilometres an hour and a stride of
    0.6 metres (the double nearest to it). *)
Theorem steps_count_of_walking_time :
  forall {World} (self : Env World) minutes waypoints end_point_metadata
         alternatives_count w result w',
    prepare_route_response self minutes waypoints end_point_metadata
      alternatives_count w = (Return result, w') ->
    steps_count result
      = round_int self (SPEED * minutes / AVERAGE_STRIDE_LENGTH)%float
    /\ SPEED = 50%float
    /\ SPEED = (3000 / 60)%float
    /\ AVERAGE_STRIDE_LENGTH = 0x1.3333333333333p-1%float.
Proof.
  intros World self minutes waypoints end_point_metadata alternatives_count
         w result w' Hresult.
  destruct (prepare_route_response_fields _ _ _ _ _ _ _ _ Hresult)
    as (_ & Hsteps & _).
  repeat split. exact Hsteps.
Qed.

Lemma steps_count_of_walking_time_witness :
  exists result,
    prepare_route_response Scripted.env 30%float walk_ends None 0
      walk_with_fountain = (Return result, script_over)
    /\ steps_count result = 2500.
Proof.
  eexists. split; [reflexivity|].
  exact (proj1 (steps_count_of_walking_time Scripted.env 30%float walk_ends
                  None 0 walk_with_fountain _ _ eq_refl)).
Defined.

(** C9. For every walking time, the [walking_time] of the result is the
    value rounded to two decimals, [round(walking_time, 2)], while the step
    count is computed from the value as it came. *)
Theorem walking_time_is_rounded :
  forall {World} (self : Env World) minutes waypoints end_point_metadata
         alternatives_count w result w',
    prepare_route_response self minutes waypoints end_point_metadata
      alternatives_count w = (Return result, w') ->
    walking_time result = round_ndigits self minutes 2
    /\ steps_count result
       = round_int self (SPEED * minutes / AVERAGE_STRIDE_LENGTH)%float.
Proof.
  intros World self minutes waypoints end_point_metadata alternatives_count
         w result w' Hresult.
  destruct (prepare_route_response_fields _ _ _ _ _ _ _ _ Hresult)
    as (Htime & Hsteps & _).
  split; assumption.
Qed.

(** For 1.234 minutes the result says 1.23, and its 103 steps are those of
    1.234 minutes: 1.23 minutes would make 102. *)
Lemma walking_time_is_rounded_witness :
  exists result,
    prepare_route_response Scripted.env 0x1.3be76c8b43958p+0%float walk_ends
      None 0 walk_with_fountain = (Return result, script_over)
    /\ walking_time result = 0x1.3ae147ae147aep+0%float
    /\ steps_count result = 103
    /\ round_int Scripted.env
         (SPEED * 0x1.3ae147ae147aep+0 / AVERAGE_STRIDE_LENGTH)%float = 102.
Proof.
  eexists. split; [reflexivity|].
  destruct (walking_time_is_rounded Scripted.env 0x1.3be76c8b43958p+0%float
              walk_ends None 0 walk_with_fountain _ _ eq_refl) as [Htime Hsteps].
  split; [exact Htime|]. split; [exact Hsteps|]. reflexivity.
Defined.

(** C8. While the response is built, a lookup near a sampled point that
    answers with another status than 200 never fails the request: whenever
    the route is built and the lookups run, each of them either refused or
    answered with an item that has a geometry, the result is returned, and
    its [route_points] are the items of the lookups that succeeded, in the
    order of the points; the refused ones leave nothing. *)
Theorem nearby_lookup_failure_is_omitted :
  forall {World} (self : Env World) minutes waypoints end_point_metadata
         alternatives_count w linestring w1 items w2,
    build_route self waypoints alternatives_count w = (Return linestring, w1) ->
    Lookups self (quarter_points waypoints) w1 items w2 ->
    prepare_route_response self minutes waypoints end_point_metadata
      alternatives_count w
    = (Return {| walking_time := round_ndigits self minutes 2;
                 route := serialize_linestring linestring;
                 route_points := items;
                 steps_count :=
                   round_int self (SPEED * minutes / AVERAGE_STRIDE_LENGTH)%float;
                 end_point_data := end_point_metadata |},
       w2).
Proof.
  intros World self minutes waypoints end_point_metadata alternatives_count
         w linestring w1 items w2 Hroute Hrun.
  unfold prepare_route_response, bind.
  rewrite Hroute, (get_route_points_metadata_run _ _ _ _ _ Hrun). reflexivity.
Qed.

(** The walk with the fountain: the first lookup is refused, the second
    succeeds, and the result carries the fountain alone. *)
Lemma walk_with_fountain_lookups :
  Lookups Scripted.env (quarter_points walk_ends)
    {| Scripted.directions_script := [];
       Scripted.geo_script :=
         [not_found;
          {| meta_code := 200;
             result_items := [landmark "Fountain" "POINT (3 0)"] |}];
       Scripted.catalog_script := [] |}
    [enriched Scripted.env (landmark "Fountain" "POINT (3 0)") "POINT (3 0)"]
    script_over.
Proof.
  eapply lookups_omitted; [reflexivity | discriminate |].
  eapply lookups_enriched; try reflexivity.
  apply lookups_done.
Defined.

Lemma nearby_lookup_failure_is_omitted_witness :
  exists result,
    prepare_route_response Scripted.env 30%float walk_ends None 0
      walk_with_fountain = (Return result, script_over)
    /\ route_points result
       = [set_point (landmark "Fountain" "POINT (3 0)")
            (Normalized {| longitude := 3; latitude := 0 |})].
Proof.
  eexists. split.
  - exact (nearby_lookup_failure_is_omitted Scripted.env 30%float walk_ends
             None 0 walk_with_fountain _ _ _ _ eq_refl
             walk_with_fountain_lookups).
  - reflexivity.
Defined.

(** ** The two request flows *)

(** C10. The two flows hand different walking times to the response
    builder: the category flow [math.pi] times the estimate from the start
    to the destination that the search chose, the concrete flow the plain
    estimate from the start to the end. *)
Theorem post_walking_times :
  forall {World} (self : Env World) (data : POIRouteView.Data)
         (route_data : ConcreteRouteView.Data) w end_point metadata w1,
    let start_point :=
      mkPoint (longitude (data_point data), latitude (data_point data)) in
    let route_start :=
      mkPoint (longitude (ConcreteRouteView.data_start_point route_data),
               latitude (ConcreteRouteView.data_start_point route_data)) in
    let route_end :=
      mkPoint (longitude (ConcreteRouteView.data_end_point route_data),
               latitude (ConcreteRouteView.data_end_point route_data)) in
    search_destination self start_point (data_type data) w
      = (Return (end_point, metadata), w1) ->
    POIRouteView.post self data w
      = prepare_route_response self
          (math_pi * estimate_walking_time self start_point end_point)%float
          (get_points_for_round_route self start_point end_point)
          (Some metadata) 0 w1
    /\ ConcreteRouteView.post self route_data w
       = prepare_route_response self
           (estimate_walking_time self route_start route_end)
           [route_start; route_end] None ConcreteRouteView.ALTERNATIVES_COUNT w.
Proof.
  intros World self data route_data w end_point metadata w1
         start_point route_start route_end Hsearch.
  split; [|reflexivity].
  unfold POIRouteView.post, bind. fold start_point. now rewrite Hsearch.
Qed.

(** From the origin to the monument the estimate is sixty minutes: the
    category flow reports [math.pi] times sixty, 188.5 when rounded, the
    concrete flow sixty. *)
Lemma post_walking_times_witness :
  let data := {| data_point := {| longitude := 0; latitude := 0 |};
                 data_type := "investigate" |} in
  let route_data :=
    {| ConcreteRouteView.data_start_point := {| longitude := 0; latitude := 0 |};
       ConcreteRouteView.data_end_point := {| longitude := 3; latitude := 0 |} |} in
  estimate_walking_time Scripted.env (mkPoint (0, 0)%float) (mkPoint (3, 0)%float)
    = 60%float
  /\ (exists result,
        POIRouteView.post Scripted.env data monument_east
          = (Return result, script_over)
        /\ walking_time result = 188.5%float)
  /\ (exists result,
        ConcreteRouteView.post Scripted.env route_data monument_east
          = (Return result, script_over)
        /\ walking_time result = 60%float).
Proof.
  intros data route_data.
  destruct (post_walking_times Scripted.env data route_data monument_east
              _ _ _ eq_refl) as [Hpoi Hconcrete].
  split; [reflexivity|]. split.
  - eexists. split; [rewrite Hpoi; reflexivity | reflexivity].
  - eexists. split; [rewrite Hconcrete; reflexivity | reflexivity].
Defined.

(** ** The destination scorer *)

(** *** The order of floats *)

Ltac compare_cases :=
  repeat match goal with
         | |- context [Z.compare ?a ?b] =>
             destruct (Z.compare_spec a b)
         | |- context [Pos.compare_cont Eq ?a ?b] =>
             change (Pos.compare_cont Eq a b) with (Pos.compare a b);
             destruct (Pos.compare_spec a b)
         | H : context [Z.compare ?a ?b] |- _ =>
             destruct (Z.compare_spec a b)
         | H : context [Pos.compare_cont Eq ?a ?b] |- _ =>
             change (Pos.compare_cont Eq a b) with (Pos.compare a b) in H;
             destruct (Pos.compare_spec a b)
         end.

Lemma SFleb_refl x : x <> S754_nan -> SFleb x x = true.
Proof.
  unfold SFleb, SFcompare.
  destruct x as [[|]|[|]| |[|] m e]; intros Hx; try reflexivity;
    try congruence;
    rewrite Z.compare_refl;
    change (Pos.compare_cont Eq m m) with (Pos.compare m m);
    now rewrite Pos.compare_refl.
Qed.

Lemma SFltb_leb x y : SFltb x y = true -> SFleb x y = true.
Proof.
  unfold SFltb, SFleb. now destruct (SFcompare x y) as [[| |]|].
Qed.

Lemma SFltb_leb_trans x y z :
  SFltb x y = true -> SFleb y z = true -> SFltb x z = true.
Proof.
  unfold SFltb, SFleb, SFcompare.
  destruct x as [[|]|[|]| |[|] mx ex], y as [[|]|[|]| |[|] my ey],
           z as [[|]|[|]| |[|] mz ez];
    intros Hxy Hyz; try discriminate; try reflexivity;
    compare_cases; simpl in *; try discriminate; try reflexivity; lia.
Qed.

Lemma SFleb_total x y :
  SFltb y x = false -> x <> S754_nan -> y <> S754_nan -> SFleb x y = true.
Proof.
  unfold SFltb, SFleb, SFcompare.
  destruct x as [[|]|[|]| |[|] mx ex], y as [[|]|[|]| |[|] my ey];
    intros Hyx Hx Hy; try discriminate; try reflexivity; try congruence;
    compare_cases; simpl in *; try discriminate; try reflexivity; lia.
Qed.

Lemma is_nan_false x : is_nan x = false -> Prim2SF x <> S754_nan.
Proof.
  unfold is_nan. rewrite eqb_spec. intros H Hnan. rewrite Hnan in H.
  discriminate H.
Qed.

(** A number is at most itself. *)
Lemma leb_refl x : is_nan x = false -> (x <=? x)%float = true.
Proof. rewrite leb_spec. intros Hx. now apply SFleb_refl, is_nan_false. Qed.

Lemma ltb_leb x y : (x <? y)%float = true -> (x <=? y)%float = true.
Proof. rewrite ltb_spec, leb_spec. apply SFltb_leb. Qed.

Lemma ltb_leb_trans x y z :
  (x <? y)%float = true -> (y <=? z)%float = true -> (x <? z)%float = true.
Proof. rewrite !ltb_spec, leb_spec. apply SFltb_leb_trans. Qed.

(** Of two numbers, the one that is not greater is at most the other. *)
Lemma leb_total x y :
  (y <? x)%float = false -> is_nan x = false -> is_nan y = false ->
  (x <=? y)%float = true.
Proof.
  rewrite ltb_spec, leb_spec. intros Hyx Hx Hy.
  apply SFleb_total; auto using is_nan_false.
Qed.

(** *** The loop of the searches *)

Section Scorer.
Context {World : Type} (self : Env World) (start_point : Point).
Context (point_of : Item -> Outcome Point).

(** The body that the two searches share, but for the way they read the
    point of an item. *)
Let body (best : Best) (item : Item) : Outcome Best :=
  obind (point_of item) (fun item_point =>
  let walking_time :=
    (math_pi * estimate_walking_time self start_point item_point)%float in
  Return (keep_optimal best item item_point walking_time)).

Let readable (item : Item) (p : Point) : Prop := point_of item = Return p.

Let is_number (p : Point) : Prop := is_nan (off_target self start_point p) = false.

(** The state of the loop once [p] is the best. *)
Let best_is (item : Item) (p : Point) : Best :=
  (Some p, Some (walk_minutes self start_point p), Some item).

(** The test of the loop compares the distances to the target. *)
Lemma keep_optimal_step item p candidate q :
  keep_optimal (best_is item p) candidate q (walk_minutes self start_point q)
  = if (off_target self start_point q <? off_target self start_point p)%float
    then best_is candidate q
    else best_is item p.
Proof. reflexivity. Qed.

(** A candidate that is nearer than the best takes its place. *)
Lemma chosen_replaced items points i item p candidate q :
  List.length items = List.length points ->
  is_number q ->
  Chosen self start_point items points i item p ->
  (off_target self start_point q <? off_target self start_point p)%float = true ->
  Chosen self start_point (items ++ [candidate]) (points ++ [q])
    (List.length items) candidate q.
Proof.
  intros Hlen Hq (Hitem & Hpoint & Hleast & Hfirst) Hnearer.
  assert (Hbelow : forall j r, nth_error points j = Some r ->
            (off_target self start_point q <? off_target self start_point r)%float
              = true)
    by (intros j r Hr; eapply ltb_leb_trans; eauto).
  repeat split.
  - now rewrite nth_error_app2, Nat.sub_diag by lia.
  - now rewrite Hlen, nth_error_app2, Nat.sub_diag by lia.
  - intros j r Hr.
    destruct (Nat.lt_ge_cases j (List.length points)) as [Hj|Hj].
    + rewrite nth_error_app1 in Hr by assumption. eauto using ltb_leb.
    + rewrite nth_error_app2 in Hr by assumption.
      destruct (j - List.length points)%nat as [|[|k]]; simpl in Hr;
        try discriminate.
      injection Hr as <-. now apply leb_refl.
  - intros j r Hj Hr. rewrite Hlen in Hj.
    rewrite nth_error_app1 in Hr by assumption. eauto.
Qed.

(** A candidate that is not nearer leaves the best in place. *)
Lemma chosen_kept items points i item p candidate q :
  List.length items = List.length points ->
  is_number p -> is_number q ->
  Chosen self start_point items points i item p ->
  (off_target self start_point q <? off_target self start_point p)%float = false ->
  Chosen self start_point (items ++ [candidate]) (points ++ [q]) i item p.
Proof.
  intros Hlen Hp Hq (Hitem & Hpoint & Hleast & Hfirst) Hfarther.
  assert (Hi : (i < List.length points)%nat)
    by (apply nth_error_Some; congruence).
  repeat split.
  - rewrite nth_error_app1 by lia. exact Hitem.
  - rewrite nth_error_app1 by lia. exact Hpoint.
  - intros j r Hr.
    destruct (Nat.lt_ge_cases j (List.length points)) as [Hj|Hj].
    + rewrite nth_error_app1 in Hr by assumption. eauto.
    + rewrite nth_error_app2 in Hr by assumption.
      destruct (j - List.length points)%nat as [|[|k]]; simpl in Hr;
        try discriminate.
      injection Hr as <-. now apply leb_total.
  - intros j r Hj Hr. rewrite nth_error_app1 in Hr by lia. eauto.
Qed.

(** The loop over the candidates that are left keeps a choice among those
    it has seen, and ends. *)
Lemma search_loop_chosen rest rest_points :
  Forall2 readable rest rest_points ->
  Forall is_number rest_points ->
  forall seen seen_points i item p,
    List.length seen = List.length seen_points ->
    is_number p ->
    Chosen self start_point seen seen_points i item p ->
    exists i' item' p',
      for_each body rest (best_is item p) = Return (best_is item' p')
      /\ Chosen self start_point (seen ++ rest) (seen_points ++ rest_points)
           i' item' p'.
Proof.
  induction 1 as [|candidate q rest rest_points Hread Hrest IH];
    intros Hnumbers seen seen_points i item p Hlen Hp Hchosen.
  - exists i, item, p. now rewrite !app_nil_r.
  - inversion Hnumbers as [|? ? Hq Hnumbers']; subst.
    cbn [for_each]. unfold body at 1. unfold readable in Hread.
    rewrite Hread. cbn [obind].
    change (math_pi * estimate_walking_time self start_point q)%float
      with (walk_minutes self start_point q).
    rewrite keep_optimal_step.
    assert (Hlen' : List.length (seen ++ [candidate])
                    = List.length (seen_points ++ [q]))
      by (rewrite !length_app; simpl; lia).
    replace (seen ++ candidate :: rest) with ((seen ++ [candidate]) ++ rest)
      by now rewrite <- app_assoc.
    replace (seen_points ++ q :: rest_points)
      with ((seen_points ++ [q]) ++ rest_points)
      by now rewrite <- app_assoc.
    destruct (off_target self start_point q <? off_target self start_point p)%float
      eqn:Hnearer.
    + eapply IH; eauto using chosen_replaced.
    + eapply IH; eauto using chosen_kept.
Qed.

(** With a candidate at least, the search returns the choice. *)
Lemma search_returns_chosen items points :
  items <> [] ->
  Forall2 readable items points ->
  Forall is_number points ->
  exists i item p,
    obind (for_each body items (None, None, None)) normalize_optimal
      = Return (p, normalized item p)
    /\ Chosen self start_point items points i item p.
Proof.
  intros Hitems Hread Hnumbers.
  destruct Hread as [|first p0 rest rest_points Hfirst Hrest]; [congruence|].
  inversion Hnumbers as [|? ? Hp0 Hnumbers']; subst.
  cbn [for_each]. unfold body at 1. unfold readable in Hfirst.
  rewrite Hfirst. cbn [obind keep_optimal].
  destruct (search_loop_chosen rest rest_points Hrest Hnumbers'
              [first] [p0] 0%nat first p0 eq_refl Hp0)
    as (i & item & p & Hloop & Hchosen).
  - repeat split.
    + intros [|[|j]] q Hq; simpl in Hq; try discriminate.
      injection Hq as <-. now apply leb_refl.
    + intros j q Hj. lia.
  - exists i, item, p. split; [|exact Hchosen].
    unfold best_is in Hloop.
    change (math_pi * estimate_walking_time self start_point p0)%float
      with (walk_minutes self start_point p0).
    now rewrite Hloop.
Qed.
End Scorer.

(** C5. For every start point and every list of candidates that is not
    empty, both searches return the candidate whose walking time,
    [math.pi] times the estimate, is nearest to the thirty minutes, and
    among those that are as near the first of the list: every candidate
    before the one returned is strictly farther. The candidates carry the
    point that the search reads, and their distances to the target are
    numbers. *)
Theorem search_optimal_returns_nearest_first :
  forall {World} (self : Env World) start_point items points,
    items <> [] ->
    Forall (fun p => is_nan (off_target self start_point p) = false) points ->
    (Forall2 (fun item p => organization_item_point item = Return p)
       items points ->
     exists i item p,
       search_optimal_organization_point self start_point items
         = Return (p, normalized item p)
       /\ Chosen self start_point items points i item p)
    /\ (Forall2 (fun item p => geo_item_point self item = Return p)
          items points ->
        exists i item p,
          search_optimal_geo_point self start_point items
            = Return (p, normalized item p)
          /\ Chosen self start_point items points i item p).
Proof.
  intros World self start_point items points Hitems Hnumbers.
  split; intros Hread.
  - exact (search_returns_chosen self start_point organization_item_point
             items points Hitems Hread Hnumbers).
  - exact (search_returns_chosen self start_point (geo_item_point self)
             items points Hitems Hread Hnumbers).
Qed.

Lemma search_optimal_returns_nearest_first_witness :
  (exists i item p,
     search_optimal_organization_point town origin stops
       = Return (p, normalized item p)
     /\ Chosen town origin stops stops_points i item p)
  /\ (exists i item p,
        search_optimal_geo_point town origin stops
          = Return (p, normalized item p)
        /\ Chosen town origin stops stops_points i item p)
  /\ search_optimal_organization_point town origin stops
     = Return (mkPoint (0.5, 0)%float,
               normalized first_cafe (mkPoint (0.5, 0)%float))
  /\ search_optimal_geo_point town origin stops
     = Return (mkPoint (0.5, 0)%float,
               normalized first_cafe (mkPoint (0.5, 0)%float))
  /\ (walk_minutes town origin (mkPoint (0.25, 0)%float)
       <? walk_minutes town origin (mkPoint (0.5, 0)%float))%float = true
  /\ (walk_minutes town origin (mkPoint (0.25, 0)%float) <? 30)%float = true
  /\ (30 <? walk_minutes town origin (mkPoint (0.5, 0)%float))%float = true
  /\ off_target town origin (mkPoint (0.5, 0)%float)
     = off_target town origin (mkPoint (0, 0.5)%float).
Proof.
  destruct (search_optimal_returns_nearest_first town origin stops
              stops_points) as [Horganization Hgeo].
  - discriminate.
  - repeat constructor.
  - split; [apply Horganization; repeat constructor|].
    split; [apply Hgeo; repeat constructor|].
    repeat split.
Defined.

Example places_old_mill :
  search_optimal_organization_point Scripted.env (mkPoint (1.5, 0)%float) places
  = Return (mkPoint (1, 0)%float,
            normalized (place "Old Mill" "POINT (1 0)" 1 0) (mkPoint (1, 0)%float))
  /\ search_optimal_geo_point Scripted.env (mkPoint (1.5, 0)%float) places
     = Return (mkPoint (1, 0)%float,
               normalized (place "Old Mill" "POINT (1 0)" 1 0)
                 (mkPoint (1, 0)%float))
  /\ off_target Scripted.env (mkPoint (1.5, 0)%float) (mkPoint (1, 0)%float)
     = off_target Scripted.env (mkPoint (1.5, 0)%float) (mkPoint (2, 0)%float).
Proof. repeat split. Qed.

(** * Further properties of the views *)

(** ** The outcomes of [build_route] *)

(** X1. [build_route] has three outcomes, told apart by the answer of the
    provider: the validation error that carries the answer when the status
    is not 200, an [IndexError] when the status is 200 and there is no item,
    and a polyline otherwise. *)
Theorem build_route_outcomes :
  forall {World} (self : Env World) points alternative w response w',
    transport_calculate_directions (api self)
      (directions_params self points alternative) w = (response, w') ->
    (meta_code response <> 200 <->
       build_route self points alternative w
         = (Raise (ValidationError (DirectionsResponse response)), w'))
    /\ (meta_code response = 200 /\ result_items response = [] <->
          build_route self points alternative w = (Raise IndexError, w'))
    /\ (successful response <->
          exists linestring,
            build_route self points alternative w = (Return linestring, w')).
Proof.
  intros World self points alternative w response w' Hcall.
  rewrite (build_route_answer self _ _ _ _ _ Hcall). unfold successful.
  destruct (meta_code response =? 200) eqn:Hcode.
  - apply Z.eqb_eq in Hcode.
    destruct (result_items response) as [|item rest].
    + split; [split; [congruence | discriminate]|].
      split; [split; [reflexivity | tauto]|].
      split; [intros [_ Hitems]; congruence | intros [linestring Hroute]].
      discriminate Hroute.
    + split; [split; [congruence | discriminate]|].
      split; [split; [intros [_ Hitems]; discriminate Hitems | discriminate]|].
      split; [intros _; eexists; reflexivity | intros _].
      split; [exact Hcode | discriminate].
  - apply Z.eqb_neq in Hcode.
    split; [split; [reflexivity | tauto]|].
    split; [split; [intros [Hok _]; congruence | discriminate]|].
    split; [intros [Hok _]; congruence | intros [linestring Hroute]].
    discriminate Hroute.
Qed.

Lemma build_route_outcomes_witness :
  build_route Scripted.env walk_ends 0 directions_refused
  = (Raise (ValidationError (DirectionsResponse (Scripted.directions 404 []))),
     {| Scripted.directions_script := [];
        Scripted.geo_script :=
          [ {| meta_code := 200;
               result_items := [landmark "Fountain" "POINT (3 0)"] |} ];
        Scripted.catalog_script := [] |}).
Proof.
  apply (build_route_outcomes Scripted.env walk_ends 0 directions_refused
           _ _ eq_refl).
  discriminate.
Defined.

(** X2. The polyline of a successful response is made of points of the edges
    that are kept: the last edge has no part in it, and when every edge
    kept has a point the polyline has one point less than they have for
    each of them. *)
Theorem build_route_polyline_points :
  forall {World} (self : Env World) points alternative w response w',
    transport_calculate_directions (api self)
      (directions_params self points alternative) w = (response, w') ->
    successful response ->
    let linestrings := edge_linestrings self (response_legs response) in
    exists polyline,
      build_route self points alternative w
        = (Return (mkLineString polyline), w')
      /\ (forall position, In position polyline ->
            exists linestring,
              In linestring (removelast linestrings)
              /\ In position (tl (linestring_coordinates linestring)))
      /\ (forall kept last, linestrings = kept ++ [last] ->
            polyline = tails kept)
      /\ (Forall (fun linestring => linestring_coordinates linestring <> [])
             (removelast linestrings) ->
           (List.length polyline + List.length (removelast linestrings)
            = List.length (flat_map linestring_coordinates
                             (removelast linestrings)))%nat).
Proof.
  intros World self points alternative w response w' Hcall Hok linestrings.
  exists (tails (removelast linestrings)). split; [|split; [|split]].
  - now apply build_route_successful.
  - intros position Hin. unfold tails in Hin.
    apply in_flat_map in Hin. exact Hin.
  - intros kept last ->. now rewrite removelast_last.
  - induction 1 as [|linestring kept Hpoints _ IH]; [reflexivity|].
    unfold tails in *. simpl. rewrite !length_app.
    destruct (linestring_coordinates linestring); [congruence|]. simpl. lia.
Qed.

Lemma build_route_polyline_points_witness :
  exists polyline,
    build_route Scripted.env walk_ends 0 (Scripted.route_of 200 four_edges)
      = (Return (mkLineString polyline), script_over)
    /\ List.length polyline = 4%nat.
Proof.
  assert (Hok : successful (Scripted.directions 200 four_edges))
    by (split; [reflexivity | discriminate]).
  destruct (build_route_polyline_points Scripted.env walk_ends 0
              (Scripted.route_of 200 four_edges) _ _ eq_refl Hok)
    as (polyline & Hroute & _ & Hkept & _).
  exists polyline. split; [exact Hroute|].
  rewrite (Hkept (removelast
                    (edge_linestrings Scripted.env
                       (response_legs (Scripted.directions 200 four_edges))))
                 (Scripted.loads_linestring "LINESTRING (3 1, 3 1)") eq_refl).
  reflexivity.
Defined.

(** X3. A concrete route request whose directions, asked for the two points
    and the alternative 5, are answered with another status than 200 fails
    with the validation error that carries the answer, and the provider is
    left as the directions call left it: no lookup is made. *)
Theorem concrete_post_directions_refused :
  forall {World} (self : Env World) (data : ConcreteRouteView.Data)
         w response w1,
    let start_point :=
      mkPoint (longitude (ConcreteRouteView.data_start_point data),
               latitude (ConcreteRouteView.data_start_point data)) in
    let end_point :=
      mkPoint (longitude (ConcreteRouteView.data_end_point data),
               latitude (ConcreteRouteView.data_end_point data)) in
    transport_calculate_directions (api self)
      (directions_params self [start_point; end_point] 5) w = (response, w1) ->
    meta_code response <> 200 ->
    ConcreteRouteView.post self data w
      = (Raise (ValidationError (DirectionsResponse response)), w1).
Proof.
  intros World self data w response w1 start_point end_point Hcall Hcode.
  unfold ConcreteRouteView.post, ConcreteRouteView.ALTERNATIVES_COUNT,
    prepare_route_response, bind.
  fold start_point end_point.
  rewrite (build_route_answer self _ _ _ _ _ Hcall).
  apply Z.eqb_neq in Hcode. now rewrite Hcode.
Qed.

Lemma concrete_post_directions_refused_witness :
  ConcreteRouteView.post Scripted.env
    {| ConcreteRouteView.data_start_point := {| longitude := 1; latitude := 0 |};
       ConcreteRouteView.data_end_point := {| longitude := 3; latitude := 1 |} |}
    directions_refused
  = (Raise (ValidationError (DirectionsResponse (Scripted.directions 404 []))),
     {| Scripted.directions_script := [];
        Scripted.geo_script :=
          [ {| meta_code := 200;
               result_items := [landmark "Fountain" "POINT (3 0)"] |} ];
        Scripted.catalog_script := [] |}).
Proof.
  apply (concrete_post_directions_refused Scripted.env
           {| ConcreteRouteView.data_start_point :=
                {| longitude := 1; latitude := 0 |};
              ConcreteRouteView.data_end_point :=
                {| longitude := 3; latitude := 1 |} |}
           directions_refused _ _ eq_refl).
  discriminate.
Defined.

(** ** The lookups around the route *)

Section Lookup.
Context {World : Type} (self : Env World).

(** A loop over two lists in a row is the loop over the first, then the
    loop over the second. *)
Lemma for_each_M_app {A S} (body : S -> A -> M World S) (xs ys : list A) :
  forall acc w,
    for_each_M body (xs ++ ys) acc w
    = bind (for_each_M body xs acc) (for_each_M body ys) w.
Proof.
  induction xs as [|x xs IH]; intros acc w; simpl.
  - reflexivity.
  - unfold bind.
    destruct (body acc x w) as [[acc'|e] w1]; [|reflexivity].
    rewrite IH. reflexivity.
Qed.

(** What one lookup does with the answer of the provider. *)
Lemma lookup_point_metadata_answer metadata point w response w1 :
  geo_search (api self) (nearby_params self point) w = (response, w1) ->
  lookup_point_metadata self metadata point w
  = if meta_code response =? 200 then
      match result_items response with
      | [] => (Raise IndexError, w1)
      | item :: _ =>
          match item_geometry item with
          | None => (Raise (KeyError "geometry"), w1)
          | Some selection =>
              (Return (metadata ++ [enriched self item selection]), w1)
          end
      end
    else (Return metadata, w1).
Proof.
  intros Hcall.
  unfold lookup_point_metadata, bind, call, nearby_params, format_point in *.
  rewrite Hcall. destruct (meta_code response =? 200); [|reflexivity].
  destruct (result_items response) as [|item rest]; [reflexivity|]. cbn.
  destruct (item_geometry item); reflexivity.
Qed.

(** What the loop has gathered when it ends: at most an item for each
    point, each with the point of its own geometry. *)
Lemma lookups_gather samples :
  forall metadata w items w',
    for_each_M (lookup_point_metadata self) samples metadata w
      = (Return items, w') ->
    exists added,
      items = metadata ++ added
      /\ (List.length added <= List.length samples)%nat
      /\ Forall (point_from_geometry self) added.
Proof.
  induction samples as [|point samples IH]; intros metadata w items w' Hloop.
  - injection Hloop as <- _. exists []. rewrite app_nil_r. now repeat split.
  - cbn [for_each_M] in Hloop. unfold bind at 1 in Hloop.
    destruct (geo_search (api self) (nearby_params self point) w)
      as [response w1] eqn:Hcall.
    rewrite (lookup_point_metadata_answer metadata point w _ _ Hcall) in Hloop.
    destruct (meta_code response =? 200).
    + destruct (result_items response) as [|item rest]; [discriminate|].
      destruct (item_geometry item) as [selection|] eqn:Hgeometry;
        [|discriminate].
      destruct (IH _ _ _ _ Hloop) as (added & -> & Hlen & Hadded).
      exists (enriched self item selection :: added).
      rewrite <- app_assoc. split; [reflexivity|]. split; [simpl; lia|].
      constructor; [|exact Hadded]. exists selection. now split.
    + destruct (IH _ _ _ _ Hloop) as (added & -> & Hlen & Hadded).
      exists added. split; [reflexivity|]. split; [simpl; lia | exact Hadded].
Qed.

(** A result of [prepare_route_response] comes from a route that was built
    and from lookups that ended. *)
Lemma prepare_route_response_returned minutes waypoints end_point_metadata
  alternatives_count w result w' :
  prepare_route_response self minutes waypoints end_point_metadata
    alternatives_count w = (Return result, w') ->
  exists linestring w1,
    build_route self waypoints alternatives_count w = (Return linestring, w1)
    /\ for_each_M (lookup_point_metadata self) (quarter_points waypoints) [] w1
       = (Return (route_points result), w')
    /\ route result = serialize_linestring linestring.
Proof.
  unfold prepare_route_response, bind at 1.
  destruct (build_route self waypoints alternatives_count w)
    as [[linestring|e] w1]; [|discriminate].
  unfold bind at 1, _get_route_points_metadata, bind at 1, lift.
  rewrite metadata_route_points_returns.
  destruct (for_each_M (lookup_point_metadata self) (quarter_points waypoints)
              [] w1) as [[metadata|e] w2] eqn:Hloop; [|discriminate].
  intros Hresult. injection Hresult as <- <-.
  exists linestring, w1. split; [reflexivity|]. split; [exact Hloop|].
  reflexivity.
Qed.

Lemma quarter_points_length (waypoints : list Point) :
  (List.length (quarter_points waypoints) <= Nat.min 4 (List.length waypoints))%nat
  /\ ((4 < List.length waypoints)%nat ->
      (List.length (quarter_points waypoints) <= 3)%nat).
Proof.
  unfold quarter_points. cbv zeta.
  destruct (List.length waypoints <=? 4)%nat eqn:Hle.
  - apply Nat.leb_le in Hle. split; [apply Nat.min_glb; lia | lia].
  - apply Nat.leb_gt in Hle. cbn [flat_map]. rewrite !length_app.
    repeat match goal with
           | |- context [nth_error ?l ?i] => destruct (nth_error l i)
           end;
      (split; [apply Nat.min_glb|]); simpl; lia.
Qed.
End Lookup.

(** X4. When there are more than four route points, the lookups are made
    around three of them, at one, two and three quarters of the list, and
    never around its first or its last point; up to four points are all
    looked up. *)
Theorem metadata_route_points_quarters :
  forall route_points : list Point,
    let n := List.length route_points in
    let quarter := (n / 4)%nat in
    ((n <= 4)%nat -> metadata_route_points route_points = Return route_points)
    /\ ((4 < n)%nat ->
        exists p1 p2 p3,
          metadata_route_points route_points = Return [p1; p2; p3]
          /\ nth_error route_points quarter = Some p1
          /\ nth_error route_points (2 * quarter) = Some p2
          /\ nth_error route_points (3 * quarter) = Some p3
          /\ (0 < quarter)%nat
          /\ (3 * quarter < n - 1)%nat).
Proof.
  intros route_points n quarter.
  rewrite metadata_route_points_returns. unfold quarter_points. fold n.
  split; intros Hn.
  - apply Nat.leb_le in Hn. now rewrite Hn.
  - assert (Hgt : (n <=? 4)%nat = false) by now apply Nat.leb_gt.
    rewrite Hgt. fold quarter.
    pose proof (Nat.div_mod_eq n 4) as Hdiv. fold quarter in Hdiv.
    pose proof (Nat.mod_upper_bound n 4 ltac:(lia)) as Hmod.
    assert (Hin : forall i, (i <= 3)%nat ->
              exists point, nth_error route_points (i * quarter) = Some point).
    { intros i Hi.
      destruct (nth_error route_points (i * quarter)) as [point|] eqn:Hnth;
        [now exists point|].
      apply nth_error_None in Hnth. fold n in Hnth. nia. }
    destruct (Hin 1%nat ltac:(lia)) as [p1 H1].
    destruct (Hin 2%nat ltac:(lia)) as [p2 H2].
    destruct (Hin 3%nat ltac:(lia)) as [p3 H3].
    exists p1, p2, p3. cbn [flat_map]. rewrite H1, H2, H3.
    rewrite Nat.mul_1_l in H1. repeat split; try assumption; lia.
Qed.

Lemma metadata_route_points_quarters_witness :
  metadata_route_points six_points
  = Return [mkPoint (1, 0); mkPoint (2, 0); mkPoint (3, 0)]%float.
Proof.
  destruct (metadata_route_points_quarters six_points) as [_ Hquarters].
  destruct (Hquarters ltac:(vm_compute; lia))
    as (p1 & p2 & p3 & Hsamples & H1 & H2 & H3 & _).
  vm_compute in H1, H2, H3.
  injection H1 as <-. injection H2 as <-. injection H3 as <-.
  exact Hsamples.
Defined.

(** X5. The result never carries more route points than there are waypoints,
    nor more than four, nor more than three when there are more than four
    waypoints. *)
Theorem route_points_bound :
  forall {World} (self : Env World) minutes waypoints end_point_metadata
         alternatives_count w result w',
    prepare_route_response self minutes waypoints end_point_metadata
      alternatives_count w = (Return result, w') ->
    (List.length (route_points result) <= Nat.min 4 (List.length waypoints))%nat
    /\ ((4 < List.length waypoints)%nat ->
        (List.length (route_points result) <= 3)%nat).
Proof.
  intros World self minutes waypoints end_point_metadata alternatives_count
         w result w' Hresult.
  destruct (prepare_route_response_returned self _ _ _ _ _ _ _ Hresult)
    as (linestring & w1 & _ & Hloop & _).
  destruct (lookups_gather self _ _ _ _ _ Hloop) as (added & -> & Hlen & _).
  destruct (quarter_points_length waypoints) as [Hmin Hthree].
  cbn [app]. split.
  - etransitivity; [exact Hlen | exact Hmin].
  - intros Hn. etransitivity; [exact Hlen | exact (Hthree Hn)].
Qed.

Lemma route_points_bound_witness :
  exists result,
    prepare_route_response Scripted.env 30%float walk_ends None 0
      walk_with_fountain = (Return result, script_over)
    /\ (List.length (route_points result) <= 2)%nat.
Proof.
  eexists. split; [reflexivity|].
  exact (proj1 (route_points_bound Scripted.env 30%float walk_ends None 0
                  walk_with_fountain _ _ eq_refl)).
Defined.

(** X6. Every route point of the result has a geometry, and its ['point'] is
    the normalized point read from that geometry. *)
Theorem route_points_carry_their_point :
  forall {World} (self : Env World) minutes waypoints end_point_metadata
         alternatives_count w result w',
    prepare_route_response self minutes waypoints end_point_metadata
      alternatives_count w = (Return result, w') ->
    Forall (point_from_geometry self) (route_points result).
Proof.
  intros World self minutes waypoints end_point_metadata alternatives_count
         w result w' Hresult.
  destruct (prepare_route_response_returned self _ _ _ _ _ _ _ Hresult)
    as (linestring & w1 & _ & Hloop & _).
  destruct (lookups_gather self _ _ _ _ _ Hloop) as (added & -> & _ & Hadded).
  exact Hadded.
Qed.

Lemma route_points_carry_their_point_witness :
  exists result,
    prepare_route_response Scripted.env 30%float walk_ends None 0
      walk_with_fountain = (Return result, script_over)
    /\ Forall (point_from_geometry Scripted.env) (route_points result).
Proof.
  eexists. split; [reflexivity|].
  exact (route_points_carry_their_point Scripted.env 30%float walk_ends None 0
           walk_with_fountain _ _ eq_refl).
Defined.

(** X7. A lookup that is answered with status 200 fails the whole request when
    the answer has no item, with an [IndexError], or when its first item has
    no geometry, with a [KeyError]: the route that was built and the items
    of the points before are lost. *)
Theorem nearby_lookup_empty_success_is_fatal :
  forall {World} (self : Env World) minutes waypoints end_point_metadata
         alternatives_count w linestring w1 before point after items w2
         response w3,
    build_route self waypoints alternatives_count w = (Return linestring, w1) ->
    quarter_points waypoints = before ++ point :: after ->
    Lookups self before w1 items w2 ->
    geo_search (api self) (nearby_params self point) w2 = (response, w3) ->
    meta_code response = 200 ->
    (result_items response = [] ->
     prepare_route_response self minutes waypoints end_point_metadata
       alternatives_count w = (Raise IndexError, w3))
    /\ (forall item rest,
          result_items response = item :: rest ->
          item_geometry item = None ->
          prepare_route_response self minutes waypoints end_point_metadata
            alternatives_count w = (Raise (KeyError "geometry"), w3)).
Proof.
  intros World self minutes waypoints end_point_metadata alternatives_count
         w linestring w1 before point after items w2 response w3
         Hroute Hsamples Hrun Hcall Hcode.
  apply Z.eqb_eq in Hcode.
  assert (Hloop : forall outcome,
            lookup_point_metadata self items point w2 = (Raise outcome, w3) ->
            prepare_route_response self minutes waypoints end_point_metadata
              alternatives_count w = (Raise outcome, w3)).
  { intros outcome Hlookup.
    unfold prepare_route_response, bind at 1. rewrite Hroute.
    unfold bind at 1, _get_route_points_metadata, bind at 1, lift.
    rewrite metadata_route_points_returns, Hsamples, for_each_M_app.
    unfold bind at 1. rewrite (lookups_loop self _ _ _ _ Hrun []).
    cbn [app for_each_M]. unfold bind at 1. now rewrite Hlookup. }
  rewrite (lookup_point_metadata_answer self items point w2 _ _ Hcall), Hcode
    in Hloop.
  split.
  - intros Hitems. apply Hloop. now rewrite Hitems.
  - intros item rest Hitems Hgeometry. apply Hloop.
    now rewrite Hitems, Hgeometry.
Qed.

Lemma nearby_lookup_empty_success_is_fatal_witness :
  prepare_route_response Scripted.env 30%float walk_ends None 0
    walk_with_empty_answer = (Raise IndexError, script_over).
Proof.
  assert (Hrun : Lookups Scripted.env [mkPoint (1, 0)%float]
                   {| Scripted.directions_script := [];
                      Scripted.geo_script :=
                        [not_found; {| meta_code := 200; result_items := [] |}];
                      Scripted.catalog_script := [] |}
                   []
                   {| Scripted.directions_script := [];
                      Scripted.geo_script :=
                        [ {| meta_code := 200; result_items := [] |} ];
                      Scripted.catalog_script := [] |})
    by (eapply lookups_omitted;
        [reflexivity | discriminate | apply lookups_done]).
  exact (proj1 (nearby_lookup_empty_success_is_fatal Scripted.env 30%float
                  walk_ends None 0 walk_with_empty_answer _ _
                  [mkPoint (1, 0)%float] (mkPoint (3, 1)%float) [] [] _
                  {| meta_code := 200; result_items := [] |} script_over
                  eq_refl eq_refl Hrun eq_refl eq_refl) eq_refl).
Defined.

(** ** The candidates of the searches *)

Section Candidates.
Context {World : Type} (self : Env World) (start_point : Point).
Context (point_of : Item -> Outcome Point).

Let body (best : Best) (item : Item) : Outcome Best :=
  obind (point_of item) (fun item_point =>
  let walking_time :=
    (math_pi * estimate_walking_time self start_point item_point)%float in
  Return (keep_optimal best item item_point walking_time)).

Let best_is (item : Item) (p : Point) : Best :=
  (Some p, Some (walk_minutes self start_point p), Some item).

Let start : Best := (None, None, None).

Lemma for_each_app {A S} (f : S -> A -> Outcome S) (xs ys : list A) :
  forall acc,
    for_each f (xs ++ ys) acc = obind (for_each f xs acc) (for_each f ys).
Proof.
  induction xs as [|x xs IH]; intros acc; simpl; [reflexivity|].
  destruct (f acc x); simpl; [apply IH | reflexivity].
Qed.

(** One turn of the loop from a state with a best candidate. *)
Lemma body_step item p candidate q :
  point_of candidate = Return q ->
  body (best_is item p) candidate
  = Return (if (off_target self start_point q
                <? off_target self start_point p)%float
            then best_is candidate q
            else best_is item p).
Proof.
  intros Hq. unfold body. rewrite Hq. cbn [obind].
  change (math_pi * estimate_walking_time self start_point q)%float
    with (walk_minutes self start_point q).
  unfold best_is. now rewrite keep_optimal_step.
Qed.

(** A state with a best candidate stays one, and the best is the one it
    was or a candidate that the loop has read. *)
Lemma search_loop_best items :
  forall item0 p0 best,
    for_each body items (best_is item0 p0) = Return best ->
    exists item p,
      best = best_is item p
      /\ ((item = item0 /\ p = p0)
          \/ (In item items /\ point_of item = Return p)).
Proof.
  induction items as [|candidate items IH]; intros item0 p0 best Hloop.
  - injection Hloop as <-. exists item0, p0. auto.
  - cbn [for_each] in Hloop.
    destruct (point_of candidate) as [q|e] eqn:Hq.
    + rewrite (body_step item0 p0 candidate q Hq) in Hloop. cbn [obind] in Hloop.
      destruct (off_target self start_point q
                <? off_target self start_point p0)%float;
        destruct (IH _ _ _ Hloop) as (item & p & Hbest & Hfrom);
        exists item, p; (split; [exact Hbest|]);
        destruct Hfrom as [[-> ->]|[Hin Hp]]; simpl; auto.
    + unfold body in Hloop. rewrite Hq in Hloop. discriminate Hloop.
Qed.

(** From the start, the loop ends with the start state on no candidate
    and with a candidate of the list as the best otherwise. *)
Lemma search_loop_from_start items best :
  for_each body items start = Return best ->
  (items = [] /\ best = start)
  \/ (exists item p,
        best = best_is item p /\ In item items /\ point_of item = Return p).
Proof.
  destruct items as [|first items]; intros Hloop.
  - injection Hloop as <-. auto.
  - right. cbn [for_each] in Hloop. unfold body at 1 in Hloop.
    destruct (point_of first) as [p0|e] eqn:Hfirst; [|discriminate Hloop].
    cbn [obind keep_optimal start] in Hloop.
    destruct (search_loop_best items first p0 best Hloop)
      as (item & p & Hbest & Hfrom).
    exists item, p. split; [exact Hbest|].
    destruct Hfrom as [[-> ->]|[Hin Hp]]; simpl; auto.
Qed.

(** What a search that returns has returned. *)
Lemma search_returned items p metadata :
  obind (for_each body items start) normalize_optimal = Return (p, metadata) ->
  exists item,
    In item items /\ point_of item = Return p
    /\ metadata = normalized item p
    /\ for_each body items start = Return (best_is item p).
Proof.
  destruct (for_each body items start) as [best|e] eqn:Hloop; [|discriminate].
  destruct (search_loop_from_start items best Hloop)
    as [[_ ->]|(item & q & -> & Hin & Hq)]; [discriminate|].
  cbn. intros Hresult. injection Hresult as <- <-.
  exists item. auto.
Qed.

(** Over candidates that can be read the loop ends. *)
Lemma search_loop_readable items :
  Forall (fun item => exists p, point_of item = Return p) items ->
  forall best, exists best', for_each body items best = Return best'.
Proof.
  induction 1 as [|candidate items [q Hq] _ IH]; intros best.
  - now exists best.
  - cbn [for_each]. unfold body at 1. rewrite Hq. cbn [obind]. apply IH.
Qed.

(** With a candidate at least, all of them readable, the search returns
    one of them. *)
Lemma search_readable_returns items :
  items <> [] ->
  Forall (fun item => exists p, point_of item = Return p) items ->
  exists item p,
    In item items /\ point_of item = Return p
    /\ obind (for_each body items start) normalize_optimal
       = Return (p, normalized item p).
Proof.
  intros Hitems Hread.
  destruct (search_loop_readable items Hread start) as [best Hloop].
  destruct (search_loop_from_start items best Hloop)
    as [[-> _]|(item & p & -> & Hin & Hp)]; [congruence|].
  exists item, p. rewrite Hloop. auto.
Qed.

(** The first candidate that cannot be read ends the search with its
    exception. *)
Lemma search_unreadable before bad after e :
  Forall (fun item => exists p, point_of item = Return p) before ->
  point_of bad = Raise e ->
  obind (for_each body (before ++ bad :: after) start) normalize_optimal
  = Raise e.
Proof.
  intros Hread Hbad.
  destruct (search_loop_readable before Hread start) as [best Hloop].
  rewrite for_each_app, Hloop. cbn [obind for_each].
  unfold body at 1. now rewrite Hbad.
Qed.

(** One more candidate at the end takes the place of the choice when it
    is strictly nearer to the target, and changes nothing otherwise. *)
Lemma search_one_more items p metadata candidate q :
  obind (for_each body items start) normalize_optimal = Return (p, metadata) ->
  point_of candidate = Return q ->
  obind (for_each body (items ++ [candidate]) start) normalize_optimal
  = if (off_target self start_point q <? off_target self start_point p)%float
    then Return (q, normalized candidate q)
    else Return (p, metadata).
Proof.
  intros Hsearch Hq.
  destruct (search_returned items p metadata Hsearch)
    as (item & _ & _ & -> & Hloop).
  rewrite for_each_app, Hloop. cbn [obind for_each].
  rewrite (body_step item p candidate q Hq). cbn [obind].
  now destruct (off_target self start_point q
                <? off_target self start_point p)%float.
Qed.
End Candidates.

(** Two loops whose bodies agree on the elements of the list agree. *)
Lemma for_each_ext {A S} (f g : S -> A -> Outcome S) (xs : list A) :
  (forall x, In x xs -> forall acc, f acc x = g acc x) ->
  forall acc, for_each f xs acc = for_each g xs acc.
Proof.
  induction xs as [|x xs IH]; intros Hext acc; simpl; [reflexivity|].
  rewrite (Hext x (or_introl eq_refl)).
  destruct (g acc x); simpl; [|reflexivity].
  apply IH. intros y Hy. apply Hext. now right.
Qed.

Lemma organization_item_point_lon_lat (item : Item) (p : Point) :
  organization_item_point item = Return p <->
  exists lon lat, item_point item = Some (LonLat lon lat) /\ p = mkPoint (lon, lat).
Proof.
  unfold organization_item_point, getitem.
  destruct (item_point item) as [[lon lat|n]|]; simpl; split.
  - intros H. injection H as <-. now exists lon, lat.
  - intros (lon' & lat' & H & ->). now injection H as -> ->.
  - discriminate.
  - intros (lon' & lat' & H & _). discriminate H.
  - discriminate.
  - intros (lon' & lat' & H & _). discriminate H.
Qed.

Lemma geo_item_point_selection {World} (self : Env World) (item : Item)
  (p : Point) :
  geo_item_point self item = Return p <->
  exists selection,
    item_geometry item = Some selection /\ p = wkt_loads_point self selection.
Proof.
  unfold geo_item_point, getitem.
  destruct (item_geometry item) as [selection|]; simpl; split.
  - intros H. injection H as <-. now exists selection.
  - intros (selection' & H & ->). now injection H as ->.
  - discriminate.
  - intros (selection' & H & _). discriminate H.
Qed.

(** X8. With a candidate at least, each with the point that the search reads,
    both searches return one of the candidates: its point, and the item
    itself with its ['point'] set to the longitude and latitude of that
    point and its other keys as they were. *)
Theorem search_optimal_returns_a_candidate :
  forall {World} (self : Env World) start_point items,
    items <> [] ->
    (Forall has_lon_lat items ->
     exists item lon lat,
       In item items /\ item_point item = Some (LonLat lon lat)
       /\ search_optimal_organization_point self start_point items
          = Return (mkPoint (lon, lat),
                    set_point item
                      (Normalized {| longitude := lon; latitude := lat |})))
    /\ (Forall has_geometry items ->
        exists item selection,
          In item items /\ item_geometry item = Some selection
          /\ search_optimal_geo_point self start_point items
             = Return (wkt_loads_point self selection,
                       enriched self item selection)).
Proof.
  intros World self start_point items Hitems. split; intros Hread.
  - destruct (search_readable_returns self start_point organization_item_point
                items Hitems) as (item & p & Hin & Hp & Hsearch).
    + eapply Forall_impl; [|exact Hread]. intros item (lon & lat & Hpoint).
      exists (mkPoint (lon, lat)). apply organization_item_point_lon_lat. eauto.
    + apply organization_item_point_lon_lat in Hp as (lon & lat & Hpoint & ->).
      exists item, lon, lat. auto.
  - destruct (search_readable_returns self start_point (geo_item_point self)
                items Hitems) as (item & p & Hin & Hp & Hsearch).
    + eapply Forall_impl; [|exact Hread]. intros item (selection & Hgeometry).
      exists (wkt_loads_point self selection).
      apply geo_item_point_selection. eauto.
    + apply geo_item_point_selection in Hp as (selection & Hgeometry & ->).
      exists item, selection. auto.
Qed.

Lemma search_optimal_returns_a_candidate_witness :
  (exists item lon lat,
     In item places /\ item_point item = Some (LonLat lon lat)
     /\ search_optimal_organization_point Scripted.env (mkPoint (1.5, 0)%float)
          places
        = Return (mkPoint (lon, lat),
                  set_point item
                    (Normalized {| longitude := lon; latitude := lat |})))
  /\ (exists item selection,
        In item places /\ item_geometry item = Some selection
        /\ search_optimal_geo_point Scripted.env (mkPoint (1.5, 0)%float) places
           = Return (wkt_loads_point Scripted.env selection,
                     enriched Scripted.env item selection)).
Proof.
  destruct (search_optimal_returns_a_candidate Scripted.env
              (mkPoint (1.5, 0)%float) places ltac:(discriminate))
    as [Horganization Hgeo].
  split; [apply Horganization | apply Hgeo];
    repeat constructor; unfold has_lon_lat, has_geometry; simpl; eauto.
Defined.

(** X9. A candidate that lacks what the search reads ends the search with a
    [KeyError], wherever it stands behind candidates that can be read: the
    key ['point'] when the item has none, the key ['lon'] when its point is
    already the normalized one, the key ['geometry'] in the search over
    geometries. *)
Theorem search_optimal_unreadable_candidate :
  forall {World} (self : Env World) start_point before bad after,
    (Forall has_lon_lat before ->
     item_point bad = None ->
     search_optimal_organization_point self start_point (before ++ bad :: after)
       = Raise (KeyError "point"))
    /\ (Forall has_lon_lat before ->
        (exists p, item_point bad = Some (Normalized p)) ->
        search_optimal_organization_point self start_point
          (before ++ bad :: after) = Raise (KeyError "lon"))
    /\ (Forall has_geometry before ->
        item_geometry bad = None ->
        search_optimal_geo_point self start_point (before ++ bad :: after)
          = Raise (KeyError "geometry")).
Proof.
  intros World self start_point before bad after.
  assert (Horganization : Forall has_lon_lat before ->
            Forall (fun item => exists p, organization_item_point item = Return p)
                   before).
  { intros Hread. eapply Forall_impl; [|exact Hread].
    intros item (lon & lat & Hpoint). exists (mkPoint (lon, lat)).
    apply organization_item_point_lon_lat. eauto. }
  assert (Hgeo : Forall has_geometry before ->
            Forall (fun item => exists p, geo_item_point self item = Return p)
                   before).
  { intros Hread. eapply Forall_impl; [|exact Hread].
    intros item (selection & Hgeometry). exists (wkt_loads_point self selection).
    apply geo_item_point_selection. eauto. }
  split; [|split].
  - intros Hread Hbad.
    apply (search_unreadable self start_point organization_item_point);
      [auto|]. unfold organization_item_point. now rewrite Hbad.
  - intros Hread [p Hbad].
    apply (search_unreadable self start_point organization_item_point);
      [auto|]. unfold organization_item_point. now rewrite Hbad.
  - intros Hread Hbad.
    apply (search_unreadable self start_point (geo_item_point self));
      [auto|]. unfold geo_item_point. now rewrite Hbad.
Qed.

(** A landmark among the places has no ['point'], a bar has no geometry,
    and what the search over points has returned cannot be searched again. *)
Lemma search_optimal_unreadable_candidate_witness :
  search_optimal_organization_point Scripted.env (mkPoint (1.5, 0)%float)
    (places ++ landmark "Fountain" "POINT (3 0)" :: places)
  = Raise (KeyError "point")
  /\ search_optimal_organization_point Scripted.env (mkPoint (1.5, 0)%float)
       ([] ++ normalized (place "Old Mill" "POINT (1 0)" 1 0)
                (mkPoint (1, 0)%float) :: [])
     = Raise (KeyError "lon")
  /\ search_optimal_geo_point Scripted.env (mkPoint (1.5, 0)%float)
       (places ++ branch "Bar" 1 0 :: places)
     = Raise (KeyError "geometry").
Proof.
  assert (Hplaces : Forall has_lon_lat places /\ Forall has_geometry places)
    by (split; repeat constructor; unfold has_lon_lat, has_geometry;
        simpl; eauto).
  destruct Hplaces as [Hpoints Hgeometries].
  split; [|split].
  - exact (proj1 (search_optimal_unreadable_candidate Scripted.env
                    (mkPoint (1.5, 0)%float) places
                    (landmark "Fountain" "POINT (3 0)") places)
                 Hpoints eq_refl).
  - exact (proj1 (proj2 (search_optimal_unreadable_candidate Scripted.env
                           (mkPoint (1.5, 0)%float) []
                           (normalized (place "Old Mill" "POINT (1 0)" 1 0)
                              (mkPoint (1, 0)%float)) []))
                 (Forall_nil _) (ex_intro _ _ eq_refl)).
  - exact (proj2 (proj2 (search_optimal_unreadable_candidate Scripted.env
                           (mkPoint (1.5, 0)%float) places
                           (branch "Bar" 1 0) places))
                 Hgeometries eq_refl).
Defined.

(** X10. The two searches are one search: on items whose ['point'] and geometry
    give the same point to the two readings, they return the same. *)
Theorem search_optimal_variants_agree :
  forall {World} (self : Env World) start_point items,
    Forall (fun item => organization_item_point item = geo_item_point self item)
           items ->
    search_optimal_organization_point self start_point items
    = search_optimal_geo_point self start_point items.
Proof.
  intros World self start_point items Hsame.
  unfold search_optimal_organization_point, search_optimal_geo_point.
  f_equal. apply for_each_ext. intros item Hin best.
  rewrite Forall_forall in Hsame. now rewrite (Hsame item Hin).
Qed.

Lemma search_optimal_variants_agree_witness :
  search_optimal_organization_point Scripted.env (mkPoint (1.5, 0)%float) places
  = search_optimal_geo_point Scripted.env (mkPoint (1.5, 0)%float) places.
Proof.
  apply (search_optimal_variants_agree Scripted.env (mkPoint (1.5, 0)%float)
           places).
  repeat constructor.
Defined.

(** X11. A candidate added at the end of a list on which the search has
    returned takes the place of the choice when its walking time is strictly
    nearer to the thirty minutes, and leaves the result as it was
    otherwise, also when it is exactly as near. *)
Theorem search_optimal_one_more_candidate :
  forall {World} (self : Env World) start_point items p metadata candidate q,
    (search_optimal_organization_point self start_point items
       = Return (p, metadata) ->
     organization_item_point candidate = Return q ->
     search_optimal_organization_point self start_point (items ++ [candidate])
     = if (off_target self start_point q <? off_target self start_point p)%float
       then Return (q, normalized candidate q)
       else Return (p, metadata))
    /\ (search_optimal_geo_point self start_point items = Return (p, metadata) ->
        geo_item_point self candidate = Return q ->
        search_optimal_geo_point self start_point (items ++ [candidate])
        = if (off_target self start_point q
              <? off_target self start_point p)%float
          then Return (q, normalized candidate q)
          else Return (p, metadata)).
Proof.
  intros World self start_point items p metadata candidate q. split.
  - exact (search_one_more self start_point organization_item_point
             items p metadata candidate q).
  - exact (search_one_more self start_point (geo_item_point self)
             items p metadata candidate q).
Qed.

(** After the inn and the shop, of which the shop at 15.7 minutes is the
    nearer to thirty, the first cafe at 31.4 minutes takes the place of the
    shop although its walk is the longer one; the second cafe, exactly as
    near as the first, then changes nothing. *)
Lemma search_optimal_one_more_candidate_witness :
  search_optimal_organization_point town origin [inn; shop]
  = Return (mkPoint (0.25, 0)%float, normalized shop (mkPoint (0.25, 0)%float))
  /\ search_optimal_organization_point town origin ([inn; shop] ++ [first_cafe])
     = Return (mkPoint (0.5, 0)%float,
               normalized first_cafe (mkPoint (0.5, 0)%float))
  /\ search_optimal_geo_point town origin
       ([inn; shop; first_cafe] ++ [second_cafe])
     = Return (mkPoint (0.5, 0)%float,
               normalized first_cafe (mkPoint (0.5, 0)%float))
  /\ (walk_minutes town origin (mkPoint (0.25, 0)%float)
       <? walk_minutes town origin (mkPoint (0.5, 0)%float))%float = true
  /\ off_target town origin (mkPoint (0.5, 0)%float)
     = off_target town origin (mkPoint (0, 0.5)%float).
Proof.
  split; [reflexivity|]. split; [|split; [|split; reflexivity]].
  - exact (proj1 (search_optimal_one_more_candidate town origin [inn; shop]
                    (mkPoint (0.25, 0)%float)
                    (normalized shop (mkPoint (0.25, 0)%float))
                    first_cafe (mkPoint (0.5, 0)%float))
                 eq_refl eq_refl).
  - exact (proj2 (search_optimal_one_more_candidate town origin
                    [inn; shop; first_cafe] (mkPoint (0.5, 0)%float)
                    (normalized first_cafe (mkPoint (0.5, 0)%float))
                    second_cafe (mkPoint (0, 0.5)%float))
                 eq_refl eq_refl).
Defined.

(** ** The two searches of [search_destination] *)

Section Destination.
Context {World : Type} (self : Env World).

(** What [search_destination] does with the answer of the geo-search. *)
Lemma search_destination_answer start_point type w response w1 :
  geo_search (api self) (geo_search_params self start_point type) w
    = (response, w1) ->
  search_destination self start_point type w
  = if meta_code response =? 200 then
      (search_optimal_geo_point self start_point (result_items response), w1)
    else
      match get_search_query_by_type type with
      | None => (Raise (ValidationError (SearchResponse response)), w1)
      | Some _ =>
          let (catalog, w2) :=
            catalog_branch_search (api self)
              (catalog_search_params self start_point type) w1 in
          if meta_code catalog =? 200 then
            (search_optimal_organization_point self start_point
               (result_items catalog), w2)
          else (Raise (ValidationError (SearchResponse catalog)), w2)
      end.
Proof.
  intros Hcall.
  unfold search_destination, geo_search_params, catalog_search_params in *.
  destruct (get_search_polygon start_point) as [point1 point2]; simpl in *.
  unfold search_geo_point, bind, call. rewrite Hcall.
  destruct (meta_code response =? 200).
  - unfold lift, ret.
    now destruct (search_optimal_geo_point self start_point
                    (result_items response)).
  - destruct (get_search_query_by_type type) as [q|]; [|reflexivity].
    unfold ret, search_organization_point, bind, call, lift.
    destruct (catalog_branch_search (api self) _ w1) as [catalog w2].
    now destruct (meta_code catalog =? 200).
Qed.
End Destination.

(** X12. When the geo-search answers with status 200, the destination is the
    one that the search over its items returns and the catalog is not
    asked, whatever the search term: an answer with no item ends the
    request with a [TypeError], it does not lead to the catalog. *)
Theorem search_destination_geo_answer_is_final :
  forall {World} (self : Env World) start_point type w response w1,
    geo_search (api self) (geo_search_params self start_point type) w
      = (response, w1) ->
    meta_code response = 200 ->
    search_destination self start_point type w
      = (search_optimal_geo_point self start_point (result_items response), w1)
    /\ (result_items response = [] ->
        search_destination self start_point type w = (Raise TypeError, w1)).
Proof.
  intros World self start_point type w response w1 Hcall Hcode.
  rewrite (search_destination_answer self start_point type w _ _ Hcall).
  apply Z.eqb_eq in Hcode. rewrite Hcode.
  split; [reflexivity|]. now intros ->.
Qed.

Lemma search_destination_geo_answer_is_final_witness :
  search_destination Scripted.env (mkPoint (0, 0)%float) "bar"
    geo_answers_nothing
  = (Raise TypeError,
     {| Scripted.directions_script := [];
        Scripted.geo_script := [];
        Scripted.catalog_script :=
          [ {| meta_code := 200; result_items := [branch "Bar" 1 0] |} ] |}).
Proof.
  exact (proj2 (search_destination_geo_answer_is_final Scripted.env
                  (mkPoint (0, 0)%float) "bar" geo_answers_nothing _ _
                  eq_refl eq_refl) eq_refl).
Defined.

(** X13. When the geo-search is refused and the category has a search term, the
    outcome is the one of the catalog search: the search over its items when
    it answers with status 200, and otherwise the validation error that
    carries the answer of the catalog, not the one of the geo-search. *)
Theorem search_destination_catalog_outcome :
  forall {World} (self : Env World) start_point type q w response w1 catalog w2,
    get_search_query_by_type type = Some q ->
    geo_search (api self) (geo_search_params self start_point type) w
      = (response, w1) ->
    meta_code response <> 200 ->
    catalog_branch_search (api self)
      (catalog_search_params self start_point type) w1 = (catalog, w2) ->
    (meta_code catalog = 200 ->
     search_destination self start_point type w
       = (search_optimal_organization_point self start_point
            (result_items catalog), w2))
    /\ (meta_code catalog <> 200 ->
        search_destination self start_point type w
          = (Raise (ValidationError (SearchResponse catalog)), w2)).
Proof.
  intros World self start_point type q w response w1 catalog w2
         Hquery Hgeo Hcode Hcatalog.
  rewrite (search_destination_answer self start_point type w _ _ Hgeo).
  apply Z.eqb_neq in Hcode. rewrite Hcode, Hquery, Hcatalog.
  split; intros Hstatus.
  - apply Z.eqb_eq in Hstatus. now rewrite Hstatus.
  - apply Z.eqb_neq in Hstatus. now rewrite Hstatus.
Qed.

Lemma search_destination_catalog_outcome_witness :
  search_destination Scripted.env (mkPoint (0, 0)%float) "bar"
    both_searches_fail
  = (Raise (ValidationError
              (SearchResponse {| meta_code := 403; result_items := [] |})),
     script_over).
Proof.
  refine (proj2 (search_destination_catalog_outcome Scripted.env
                   (mkPoint (0, 0)%float) "bar" "Бар" both_searches_fail
                   not_found
                   {| Scripted.directions_script := [];
                      Scripted.geo_script := [];
                      Scripted.catalog_script :=
                        [ {| meta_code := 403; result_items := [] |} ] |}
                   {| meta_code := 403; result_items := [] |} script_over
                   eq_refl eq_refl _ eq_refl) _); discriminate.
Defined.

(** ** The result of the category flow *)

(** Where the destination that is returned comes from: an item of the
    answer of the geo-search when that answer has status 200, and otherwise
    an item of the answer of the catalog search, which then has status 200;
    the destination is the point read from that item. *)
Lemma search_destination_origin {World} (self : Env World) start_point type
  w response w1 end_point metadata w' :
  geo_search (api self) (geo_search_params self start_point type) w
    = (response, w1) ->
  search_destination self start_point type w
    = (Return (end_point, metadata), w') ->
  exists item,
    metadata = normalized item end_point
    /\ ((meta_code response = 200
         /\ In item (result_items response)
         /\ geo_item_point self item = Return end_point)
        \/ (meta_code response <> 200
            /\ exists catalog w2,
                 catalog_branch_search (api self)
                   (catalog_search_params self start_point type) w1
                   = (catalog, w2)
                 /\ meta_code catalog = 200
                 /\ In item (result_items catalog)
                 /\ organization_item_point item = Return end_point)).
Proof.
  intros Hcall.
  rewrite (search_destination_answer self start_point type w _ _ Hcall).
  destruct (meta_code response =? 200) eqn:Hcode.
  - apply Z.eqb_eq in Hcode.
    intros Hresult. injection Hresult as Hsearch _.
    destruct (search_returned self start_point (geo_item_point self)
                _ _ _ Hsearch) as (item & Hin & Hp & -> & _).
    exists item. split; [reflexivity|]. left. auto.
  - apply Z.eqb_neq in Hcode.
    destruct (get_search_query_by_type type); [|discriminate].
    destruct (catalog_branch_search (api self) _ w1) as [catalog w2] eqn:Hcatalog.
    destruct (meta_code catalog =? 200) eqn:Hstatus; [|discriminate].
    apply Z.eqb_eq in Hstatus.
    intros Hresult. injection Hresult as Hsearch _.
    destruct (search_returned self start_point organization_item_point
                _ _ _ Hsearch) as (item & Hin & Hp & -> & _).
    exists item. split; [reflexivity|]. right.
    split; [exact Hcode|]. exists catalog, w2. auto.
Qed.

(** X14. A category request that is answered carries in [end_point_data] an
    item of the search that found the destination, with its ['point'] set to
    the destination: an item of the answer of the geo-search, the
    destination read from its geometry, when that answer has status 200,
    and otherwise an item of the answer of the catalog search, which then
    has status 200, the destination being its ['lon'] and ['lat']. The
    walking time of the result is [math.pi] times the estimate to that
    destination, rounded to two decimals, and there are at most three route
    points. *)
Theorem poi_post_result :
  forall {World} (self : Env World) (data : POIRouteView.Data)
         w response w1 result w',
    let start_point :=
      mkPoint (longitude (data_point data), latitude (data_point data)) in
    geo_search (api self)
      (geo_search_params self start_point (data_type data)) w
      = (response, w1) ->
    POIRouteView.post self data w = (Return result, w') ->
    exists end_point item,
      end_point_data result = Some (normalized item end_point)
      /\ walking_time result
         = round_ndigits self
             (math_pi * estimate_walking_time self start_point end_point)%float 2
      /\ (List.length (route_points result) <= 3)%nat
      /\ ((meta_code response = 200
           /\ In item (result_items response)
           /\ exists selection,
                item_geometry item = Some selection
                /\ end_point = wkt_loads_point self selection)
          \/ (meta_code response <> 200
              /\ exists catalog w2 lon lat,
                   catalog_branch_search (api self)
                     (catalog_search_params self start_point (data_type data))
                     w1 = (catalog, w2)
                   /\ meta_code catalog = 200
                   /\ In item (result_items catalog)
                   /\ item_point item = Some (LonLat lon lat)
                   /\ end_point = mkPoint (lon, lat))).
Proof.
  intros World self data w response w1 result w' start_point Hcall.
  unfold POIRouteView.post, bind at 1. fold start_point.
  destruct (search_destination self start_point (data_type data) w)
    as [[[end_point metadata]|e] w2] eqn:Hsearch; [|discriminate].
  intros Hresult.
  destruct (search_destination_origin self _ _ _ _ _ _ _ _ Hcall Hsearch)
    as (item & -> & Horigin).
  destruct (prepare_route_response_fields self _ _ _ _ _ _ _ Hresult)
    as (Htime & _ & Hend).
  destruct (prepare_route_response_returned self _ _ _ _ _ _ _ Hresult)
    as (linestring & w3 & _ & Hloop & _).
  destruct (lookups_gather self _ _ _ _ _ Hloop) as (added & Hadded & Hlen & _).
  exists end_point, item. split; [exact Hend|]. split; [exact Htime|].
  split; [rewrite Hadded; exact Hlen|].
  destruct Horigin as [(Hcode & Hin & Hp)|(Hcode & catalog & w4 & Hcatalog
                                           & Hstatus & Hin & Hp)].
  - left. split; [exact Hcode|]. split; [exact Hin|].
    now apply geo_item_point_selection.
  - right. split; [exact Hcode|].
    apply organization_item_point_lon_lat in Hp as (lon & lat & Hpoint & ->).
    exists catalog, w4, lon, lat. auto.
Qed.

(** The monument three units east is found by the geo-search: the answer
    carries it with its point, and the walk there and back around takes
    [math.pi] times sixty minutes, 188.5 when rounded. *)
Lemma poi_post_result_witness :
  exists end_point item,
    match fst (POIRouteView.post Scripted.env
                 {| data_point := {| longitude := 0; latitude := 0 |};
                    data_type := "investigate" |} monument_east) with
    | Return result =>
        end_point_data result = Some (normalized item end_point)
        /\ walking_time result = 188.5%float
        /\ (List.length (route_points result) <= 3)%nat
    | Raise _ => False
    end
    /\ item = landmark "Monument" "POINT (3 0)"
    /\ end_point = mkPoint (3, 0)%float.
Proof.
  destruct (poi_post_result Scripted.env
              {| data_point := {| longitude := 0; latitude := 0 |};
                 data_type := "investigate" |} monument_east _ _ _ _
              eq_refl eq_refl)
    as (end_point & item & Hend & Htime & Hlen & Horigin).
  assert (Hfound : item = landmark "Monument" "POINT (3 0)"
                   /\ end_point = mkPoint (3, 0)%float).
  { destruct Horigin as [(_ & Hin & selection & Hgeometry & Hpoint)
                        |(Hcode & _)].
    - destruct Hin as [<-|[]]. injection Hgeometry as <-.
      split; [reflexivity | exact Hpoint].
    - exfalso. apply Hcode. reflexivity. }
  destruct Hfound as [Hitem Hpoint].
  exists end_point, item. split; [|split; assumption].
  split; [exact Hend|]. split; [|exact Hlen].
  rewrite Htime, Hpoint. reflexivity.
Defined.

(** ** What a result is made of *)

(** The lookups of a loop that ends form a run: each point was refused or
    answered with an item that has a geometry. *)
Lemma lookups_run_of_loop {World} (self : Env World) samples :
  forall metadata w items w',
    for_each_M (lookup_point_metadata self) samples metadata w
      = (Return items, w') ->
    exists added,
      items = metadata ++ added /\ Lookups self samples w added w'.
Proof.
  induction samples as [|point samples IH]; intros metadata w items w' Hloop.
  - injection Hloop as <- <-. exists []. rewrite app_nil_r.
    split; [reflexivity | constructor].
  - cbn [for_each_M] in Hloop. unfold bind at 1 in Hloop.
    destruct (geo_search (api self) (nearby_params self point) w)
      as [response w1] eqn:Hcall.
    rewrite (lookup_point_metadata_answer self metadata point w _ _ Hcall)
      in Hloop.
    destruct (meta_code response =? 200) eqn:Hcode.
    + apply Z.eqb_eq in Hcode.
      destruct (result_items response) as [|item rest] eqn:Hitems;
        [discriminate|].
      destruct (item_geometry item) as [selection|] eqn:Hgeometry;
        [|discriminate].
      destruct (IH _ _ _ _ Hloop) as (added & -> & Hrun).
      exists (enriched self item selection :: added).
      rewrite <- app_assoc. split; [reflexivity|].
      eapply lookups_enriched; eassumption.
    + apply Z.eqb_neq in Hcode.
      destruct (IH _ _ _ _ Hloop) as (added & -> & Hrun).
      exists added. split; [reflexivity|].
      eapply lookups_omitted; eassumption.
Qed.

(** X15. Every result comes from successful directions and from a run of the
    lookups: its [route] lists the positions of the polyline in order, as
    longitude and latitude, and its route points are the items of the run,
    so that each lookup was refused or answered with an item that has a
    geometry. *)
Theorem prepare_route_response_result :
  forall {World} (self : Env World) minutes waypoints end_point_metadata
         alternatives_count w response w1 result w',
    transport_calculate_directions (api self)
      (directions_params self waypoints alternatives_count) w = (response, w1) ->
    prepare_route_response self minutes waypoints end_point_metadata
      alternatives_count w = (Return result, w') ->
    successful response
    /\ route result
       = map (fun position : Position =>
                {| longitude := fst position; latitude := snd position |})
             (tails (removelast
                       (edge_linestrings self (response_legs response))))
    /\ Lookups self (quarter_points waypoints) w1 (route_points result) w'.
Proof.
  intros World self minutes waypoints end_point_metadata alternatives_count
         w response w1 result w' Hcall Hresult.
  destruct (prepare_route_response_returned self _ _ _ _ _ _ _ Hresult)
    as (linestring & w1' & Hroute & Hloop & Hserialized).
  rewrite (build_route_answer self _ _ _ _ _ Hcall) in Hroute.
  unfold successful, response_legs.
  destruct (meta_code response =? 200) eqn:Hcode; [|discriminate].
  apply Z.eqb_eq in Hcode.
  destruct (result_items response) as [|item rest]; [discriminate|].
  injection Hroute as <- <-.
  destruct (lookups_run_of_loop self _ _ _ _ _ Hloop) as (added & -> & Hrun).
  split; [split; [exact Hcode | discriminate]|].
  split; [exact Hserialized | exact Hrun].
Qed.

Lemma prepare_route_response_result_witness :
  exists result,
    prepare_route_response Scripted.env 30%float walk_ends None 0
      walk_with_fountain = (Return result, script_over)
    /\ route result
       = [ {| longitude := 1; latitude := 0 |};
           {| longitude := 1; latitude := 1 |};
           {| longitude := 2; latitude := 1 |};
           {| longitude := 3; latitude := 1 |} ].
Proof.
  eexists. split; [reflexivity|].
  exact (proj1 (proj2 (prepare_route_response_result Scripted.env 30%float
                         walk_ends None 0 walk_with_fountain _ _ _ _
                         eq_refl eq_refl))).
Defined.

(** X16. A concrete route request that is answered has no [end_point_data], the
    plain estimate between its two points, rounded to two decimals, as
    walking time, and at most two route points. *)
Theorem concrete_post_result :
  forall {World} (self : Env World) (data : ConcreteRouteView.Data) w result w',
    let start_point :=
      mkPoint (longitude (ConcreteRouteView.data_start_point data),
               latitude (ConcreteRouteView.data_start_point data)) in
    let end_point :=
      mkPoint (longitude (ConcreteRouteView.data_end_point data),
               latitude (ConcreteRouteView.data_end_point data)) in
    ConcreteRouteView.post self data w = (Return result, w') ->
    end_point_data result = None
    /\ walking_time result
       = round_ndigits self (estimate_walking_time self start_point end_point) 2
    /\ (List.length (route_points result) <= 2)%nat.
Proof.
  intros World self data w result w' start_point end_point Hresult.
  unfold ConcreteRouteView.post in Hresult. fold start_point end_point in Hresult.
  destruct (prepare_route_response_fields self _ _ _ _ _ _ _ Hresult)
    as (Htime & _ & Hend).
  destruct (prepare_route_response_returned self _ _ _ _ _ _ _ Hresult)
    as (linestring & w1 & _ & Hloop & _).
  destruct (lookups_gather self _ _ _ _ _ Hloop) as (added & Hadded & Hlen & _).
  split; [exact Hend|]. split; [exact Htime|]. rewrite Hadded. exact Hlen.
Qed.

Lemma concrete_post_result_witness :
  match fst (ConcreteRouteView.post Scripted.env
               {| ConcreteRouteView.data_start_point :=
                    {| longitude := 0; latitude := 0 |};
                  ConcreteRouteView.data_end_point :=
                    {| longitude := 3; latitude := 0 |} |} monument_east) with
  | Return result =>
      end_point_data result = None /\ walking_time result = 60%float
  | Raise _ => False
  end.
Proof.
  destruct (concrete_post_result Scripted.env
              {| ConcreteRouteView.data_start_point :=
                   {| longitude := 0; latitude := 0 |};
                 ConcreteRouteView.data_end_point :=
                   {| longitude := 3; latitude := 0 |} |} monument_east _ _
              eq_refl) as (Hend & Htime & _).
  exact (conj Hend Htime).
Defined.

(** X17. In the category flow the directions are asked for the five points of
    the loop with the alternative 0, and the lookups are made around the
    second point, the destination and the fourth point, not around the
    start: when the search, the directions and these three lookups go
    through, the request is answered with their items. *)
Theorem poi_post_lookups :
  forall {World} (self : Env World) (data : POIRouteView.Data)
         w end_point metadata w1 linestring w2 items w3,
    let start_point :=
      mkPoint (longitude (data_point data), latitude (data_point data)) in
    let center := get_center_of_points self start_point end_point in
    let normal := get_normal_vector self start_point end_point in
    let second_point :=
      mkPoint ((fst center + fst normal)%float, (snd center + snd normal)%float) in
    let fourth_point :=
      mkPoint ((fst center - fst normal)%float, (snd center - snd normal)%float) in
    search_destination self start_point (data_type data) w
      = (Return (end_point, metadata), w1) ->
    build_route self
      [start_point; second_point; end_point; fourth_point; start_point] 0 w1
      = (Return linestring, w2) ->
    Lookups self [second_point; end_point; fourth_point] w2 items w3 ->
    exists result,
      POIRouteView.post self data w = (Return result, w3)
      /\ route_points result = items
      /\ route result = serialize_linestring linestring
      /\ end_point_data result = Some metadata.
Proof.
  intros World self data w end_point metadata w1 linestring w2 items w3
         start_point center normal second_point fourth_point
         Hsearch Hroute Hrun.
  unfold POIRouteView.post, bind at 1. fold start_point. rewrite Hsearch.
  unfold prepare_route_response, bind at 1.
  change (get_points_for_round_route self start_point end_point)
    with [start_point; second_point; end_point; fourth_point; start_point].
  rewrite Hroute. unfold bind at 1.
  rewrite (get_route_points_metadata_run self
             [start_point; second_point; end_point; fourth_point; start_point]
             w2 items w3 Hrun).
  eexists. split; [reflexivity|]. repeat split.
Qed.

Lemma poi_post_lookups_witness :
  exists result,
    POIRouteView.post Scripted.env
      {| data_point := {| longitude := 0; latitude := 0 |};
         data_type := "investigate" |} monument_east
      = (Return result, script_over)
    /\ route_points result = [].
Proof.
  assert (Hrun : Lookups Scripted.env
                   [mkPoint (1.5, 3); mkPoint (3, 0); mkPoint (1.5, -3)]%float
                   script_over [] script_over).
  { eapply lookups_omitted; [reflexivity | discriminate |].
    eapply lookups_omitted; [reflexivity | discriminate |].
    eapply lookups_omitted; [reflexivity | discriminate |].
    apply lookups_done. }
  destruct (poi_post_lookups Scripted.env
              {| data_point := {| longitude := 0; latitude := 0 |};
                 data_type := "investigate" |} monument_east
              _ _ _ _ _ _ _ eq_refl eq_refl Hrun)
    as (result & Hpost & Hpoints & _).
  exists result. split; assumption.
Defined.
